(** * NepalReform: a shallow embedding of the id-normalisation helpers,
      the vote and list components and the API routes, with the
      properties of the specification that they decide.

    Conventions of the embedding.
    - A JavaScript string is a [string]; a character stands for the UTF-16
      code unit of the same value, so the development covers the strings
      whose code units are below 256 (identifiers, decimal numbers and
      hexadecimal digits all are).
    - An integral JavaScript number is a [Z]; the 32-bit conversions that
      the bit operators perform are written out ([ToInt32]).
    - A number that comes out of [Number(...)] is a [TestimonialsRoute.Num]:
      not-a-number, an infinity, or a finite value held as a rational.
    - A timestamp is the [Z] of its instant in milliseconds, which is what
      [new Date(...).getTime()] and the ordering of the database read.
    - A database table is the list of its rows; a query is a function of
      that list. *)

From Stdlib Require Import ZArith QArith String Ascii List Bool Lia.
From Stdlib Require Import Permutation Sorted.
From stdpp Require Import gmap strings list fin_maps sorting.

#[local] Open Scope string_scope.
#[local] Open Scope Z_scope.

(* ===================================================================== *)
(** * Part 1. The platform: the string and number primitives used        *)
(* ===================================================================== *)

Module Js.

(** ** Character classes of the regular expressions *)

Definition code (c : ascii) : Z := Z.of_N (N_of_ascii c).

Definition in_range (lo hi : ascii) (c : ascii) : bool :=
  (code lo <=? code c) && (code c <=? code hi).

(** [\d] *)
Definition is_digit (c : ascii) : bool := in_range "0" "9" c.

(** [[0-9a-f]] under the [i] flag *)
Definition is_hex (c : ascii) : bool :=
  is_digit c || in_range "a" "f" c || in_range "A" "F" c.

(** [[1-5]] *)
Definition is_1_5 (c : ascii) : bool := in_range "1" "5" c.

(** [[89ab]] under the [i] flag *)
Definition is_89ab (c : ascii) : bool :=
  in_range "8" "9" c || in_range "a" "b" c || in_range "A" "B" c.

Definition is_char (d : ascii) (c : ascii) : bool := Ascii.eqb d c.

(** A regular expression of the shape [^c1 c2 ... cn$], every [ci] a
    character class: the subject matches when it has exactly [n]
    characters and the i-th one lies in the i-th class. *)
Fixpoint test_classes (cls : list (ascii -> bool)) (s : string) : bool :=
  match cls, s with
  | [], EmptyString => true
  | p :: cls', String c s' => p c && test_classes cls' s'
  | _, _ => false
  end.

(** Every character of the string lies in the class. *)
Fixpoint all_in (p : ascii -> bool) (s : string) : bool :=
  match s with
  | EmptyString => true
  | String c s' => p c && all_in p s'
  end.

(** [^\d+$]: one digit or more, and nothing else. *)
Definition test_digits (s : string) : bool :=
  match s with
  | EmptyString => false
  | String _ _ => all_in is_digit s
  end.

(** ** String methods *)

Fixpoint repeat_char (c : ascii) (n : nat) : string :=
  match n with
  | O => EmptyString
  | S n' => String c (repeat_char c n')
  end.

(** [s.padStart(n, c)] and [s.padEnd(n, c)]; the filler is one character
    in every call of the sources. *)
Definition padStart (n : nat) (c : ascii) (s : string) : string :=
  repeat_char c (n - String.length s) +:+ s.

Definition padEnd (n : nat) (c : ascii) (s : string) : string :=
  s +:+ repeat_char c (n - String.length s).

(** [s.substring(a, b)]: the arguments are clamped to the length and
    swapped when [a > b]. *)
Definition substring (a b : nat) (s : string) : string :=
  String.substring (Nat.min a b) (Nat.max a b - Nat.min a b) s.

Fixpoint drop (n : nat) (s : string) : string :=
  match n, s with
  | O, _ => s
  | S _, EmptyString => EmptyString
  | S n', String _ s' => drop n' s'
  end.

(** [s.replace(pat, rep)] with a string pattern: the first occurrence
    of [pat] is replaced, and [s] is returned when there is none. *)
Fixpoint replace (pat rep s : string) : string :=
  if String.prefix pat s then rep +:+ drop (String.length pat) s
  else match s with
       | EmptyString => EmptyString
       | String c s' => String c (replace pat rep s')
       end.

(** [s.startsWith(p)] *)
Definition startsWith (p s : string) : bool := String.prefix p s.

(** White space and line terminators, as [trim] sees them among the
    code units below 256: TAB, LF, VT, FF, CR, SP and NBSP. *)
Definition is_space (c : ascii) : bool :=
  let n := code c in
  ((9 <=? n) && (n <=? 13)) || (n =? 32) || (n =? 160).

Fixpoint trimStart (s : string) : string :=
  match s with
  | EmptyString => EmptyString
  | String c s' => if is_space c then trimStart s' else s
  end.

Fixpoint trimEnd (s : string) : string :=
  match s with
  | EmptyString => EmptyString
  | String c s' =>
      match trimEnd s' with
      | EmptyString => if is_space c then EmptyString else String c EmptyString
      | t => String c t
      end
  end.

Definition trim (s : string) : string := trimEnd (trimStart s).

(** ** Numbers *)

(** The signed 32-bit integers. *)
Definition int32 (z : Z) : Prop := - 2 ^ 31 <= z < 2 ^ 31.

(** The conversion to a signed 32-bit integer that the bit operators
    apply to their operands. *)
Definition ToInt32 (z : Z) : Z := (z + 2 ^ 31) mod 2 ^ 32 - 2 ^ 31.

(** [a << k] *)
Definition shl (a : Z) (k : Z) : Z := ToInt32 (Z.shiftl (ToInt32 a) (k mod 32)).

(** [a & b] *)
Definition band (a b : Z) : Z := Z.land (ToInt32 a) (ToInt32 b).

Definition hex_digit (d : Z) : ascii :=
  if d <? 10 then ascii_of_N (Z.to_N (48 + d)) else ascii_of_N (Z.to_N (87 + d)).

(** The digits of [n] in base 16, most significant first; [fuel] bounds
    their number. *)
Fixpoint hex_digits (fuel : nat) (n : Z) (acc : string) : string :=
  match fuel with
  | O => acc
  | S fuel' =>
      let acc' := String (hex_digit (n mod 16)) acc in
      if n / 16 =? 0 then acc' else hex_digits fuel' (n / 16) acc'
  end.

(** [n.toString(16)] for an integer [n >= 0]. A number below [2^k] has
    at most [k] digits, so the fuel is never exhausted. *)
Definition toString16 (n : Z) : string :=
  hex_digits (S (Z.to_nat (Z.log2 n))) n EmptyString.

(** [c.toLowerCase()] for one code unit below 256: the letters A-Z and
    the capital letters of Latin-1 (U+00C0 to U+00DE, without the sign
    U+00D7) move 32 places up; nothing else changes. *)
Definition toLowerCaseChar (c : ascii) : ascii :=
  let n := code c in
  if ((65 <=? n) && (n <=? 90)) || ((192 <=? n) && (n <=? 214)) || ((216 <=? n) && (n <=? 222))
  then ascii_of_N (Z.to_N (n + 32))
  else c.

(** [s.toLowerCase()] *)
Fixpoint toLowerCase (s : string) : string :=
  match s with
  | EmptyString => EmptyString
  | String c s' => String (toLowerCaseChar c) (toLowerCase s')
  end.

(** [s.includes(needle)] *)
Fixpoint includes (needle s : string) : bool :=
  if String.prefix needle s then true
  else match s with
       | EmptyString => false
       | String _ s' => includes needle s'
       end.

End Js.

(* ===================================================================== *)
(** * Part 2. Id normalisation (lib/utils/uuid-helpers)                  *)
(* ===================================================================== *)

(** The answer of a query that ends in [.single()]: the row, the error
    [PGRST116] (no row, or more than one), or another error. The mock
    client of the build answers [{ data: null, error: null }], which the
    callers cannot tell from [PGRST116]. *)
Inductive Single (A : Type) : Type :=
| Data (a : A)
| PGRST116
| QueryError.
Arguments Data {A} a.
Arguments PGRST116 {A}.
Arguments QueryError {A}.

(** What awaiting an [async] call gives: the promise is rejected, and the
    [await] throws, or it is fulfilled with a value. *)
Inductive Promise (A : Type) : Type :=
| Rejected
| Fulfilled (value : A).
Arguments Rejected {A}.
Arguments Fulfilled {A} value.

Module UuidHelpers.

Definition dash : ascii -> bool := Js.is_char "-".

(** [/^[0-9a-f]{8}-[0-9a-f]{4}-[1-5][0-9a-f]{3}-[89ab][0-9a-f]{3}-[0-9a-f]{12}$/i] *)
Definition uuidRegex : list (ascii -> bool) :=
  repeat Js.is_hex 8 ++ [dash] ++
  repeat Js.is_hex 4 ++ [dash] ++
  [Js.is_1_5] ++ repeat Js.is_hex 3 ++ [dash] ++
  [Js.is_89ab] ++ repeat Js.is_hex 3 ++ [dash] ++
  repeat Js.is_hex 12.

Definition isValidUUID (uuid : string) : bool := Js.test_classes uuidRegex uuid.

(** [/^manifesto-\d+$/] *)
Definition isManifestoFormat (id : string) : bool :=
  String.prefix "manifesto-" id && Js.test_digits (Js.drop 10 id).

(** [/^\d+$/] *)
Definition isRawInteger (id : string) : bool := Js.test_digits id.

Definition toManifestoFormat (id : string) : string :=
  if isRawInteger id then "manifesto-" +:+ id else id.

(** One turn of the loop of [generateDeterministicUUID]:
    [hash = (hash << 5) - hash + char; hash = hash & hash]. *)
Definition hashStep (hash : Z) (char : Z) : Z :=
  let hash := Js.shl hash 5 - hash + char in
  Js.band hash hash.

Fixpoint hashLoop (s : string) (hash : Z) : Z :=
  match s with
  | EmptyString => hash
  | String c s' => hashLoop s' (hashStep hash (Js.code c))
  end.

Definition generateDeterministicUUID (manifestoId : string) : string :=
  let seedString := "agenda-" +:+ manifestoId in
  let hash := hashLoop seedString 0 in
  let positiveHash := Z.abs hash in
  let hex := Js.padStart 8 "0" (Js.toString16 positiveHash) in
  let manifestoNumber := Js.padStart 4 "0" (Js.replace "manifesto-" "" manifestoId) in
  Js.substring 0 8 hex +:+ "-" +:+ manifestoNumber +:+ "-4000-8" +:+
  (match Js.substring 8 11 hex with
   | EmptyString => "000"
   | t => t
   end) +:+ "-" +:+
  Js.padEnd 12 "0" (Js.substring 0 12 hex).

(** The value of the variable [hex] of [generateDeterministicUUID]. *)
Definition hexOf (manifestoId : string) : string :=
  Js.padStart 8 "0"
    (Js.toString16 (Z.abs (hashLoop ("agenda-" +:+ manifestoId) 0))).

(** [getOrCreateAgendaUUID]. [createClient] is what
    [await createClient()] gives; the call stands before the [try], so when
    it is rejected the function is rejected too. Of a client, [find] is the
    answer of
    [from("agendas").select("id").eq("sequence_id", parseInt(number)).single()]
    for the number that is left of the id once ["manifesto-"] is removed.
    [None] is the [null] of the [catch] branch. *)
Definition getOrCreateAgendaUUID
    (createClient : Promise (string -> Single string)) (manifestoId : string)
  : Promise (option string) :=
  match createClient with
  | Rejected => Rejected
  | Fulfilled find =>
      let manifestoNumber := Js.replace "manifesto-" "" manifestoId in
      Fulfilled
        match find manifestoNumber with
        | QueryError => None
        | Data id => Some id
        | PGRST116 => Some (generateDeterministicUUID manifestoId)
        end
  end.

Record Validation : Type := mkValidation {
  isValid : bool;
  normalizedId : string;
  agendaUUID : option string;
  error : option string
}.

(** [validateAndNormalizeAgendaId]. The whole body is in a [try]: when
    [getOrCreateAgendaUUID] is rejected, the [catch] branch answers. *)
Definition validateAndNormalizeAgendaId
    (createClient : Promise (string -> Single string)) (id : string) : Validation :=
  if isValidUUID id then
    mkValidation true id (Some id) None
  else if isRawInteger id then
    let normalizedId := toManifestoFormat id in
    match getOrCreateAgendaUUID createClient normalizedId with
    | Fulfilled agendaUUID => mkValidation true normalizedId agendaUUID None
    | Rejected => mkValidation false id None (Some "Failed to validate agenda ID")
    end
  else if isManifestoFormat id then
    match getOrCreateAgendaUUID createClient id with
    | Fulfilled agendaUUID => mkValidation true id agendaUUID None
    | Rejected => mkValidation false id None (Some "Failed to validate agenda ID")
    end
  else
    mkValidation false id None
      (Some "Invalid ID format. Expected UUID, integer, or manifesto-{number} format.").

End UuidHelpers.

(* ===================================================================== *)
(** * Part 3. The edge middleware (middleware.ts)                        *)
(* ===================================================================== *)

(** The answer of [supabase.auth.getUser()]: the id of the user of the
    session, and whether the call reported an error. *)
Record AuthResult : Type := mkAuth {
  user : option string;
  authError : bool
}.

Module Middleware.

Record Env : Type := mkEnv {
  NEXT_PUBLIC_SUPABASE_URL : option string;
  NEXT_PUBLIC_SUPABASE_ANON_KEY : option string
}.

(** [!v] for an environment variable: unset, or the empty string. *)
Definition unset (v : option string) : bool :=
  match v with
  | None => true
  | Some EmptyString => true
  | Some _ => false
  end.

Inductive Response : Type :=
| Next                                   (* NextResponse.next() *)
| Json (status : Z) (error : string).    (* NextResponse.json({ error }, { status }) *)

(** The role read from the answer of
    [from('profiles').select('role').eq('id', user.id).single()]:
    [profile?.role], with [None] for a missing profile or role. *)
Definition roleOf (profile : Single (option string)) : option string :=
  match profile with
  | Data role => role
  | _ => None
  end.

Definition middleware
    (env : Env) (getUser : AuthResult)
    (profiles : string -> Single (option string))
    (pathname : string) : Response :=
  if unset (NEXT_PUBLIC_SUPABASE_URL env) || unset (NEXT_PUBLIC_SUPABASE_ANON_KEY env)
  then Next
  else if Js.startsWith "/api/admin" pathname then
    match authError getUser, user getUser with
    | false, Some uid =>
        match roleOf (profiles uid) with
        | Some role => if String.eqb role "admin" then Next else Json 403 "Forbidden"
        | None => Json 403 "Forbidden"
        end
    | _, _ => Json 401 "Unauthorized"
    end
  else Next.

End Middleware.

(* ===================================================================== *)
(** * Part 4. Array.prototype.sort                                       *)
(* ===================================================================== *)

(** [sort] is stable, and with a consistent comparator it returns the
    sorted permutation of the array. That permutation is unique, so any
    stable algorithm computes it; the one below inserts every element, from
    the last to the first, in front of the first element that it does not
    have to follow. *)
Module JsArray.
Section Sort.
Context {A : Type} (compareFn : A -> A -> Z).

Fixpoint place (x : A) (l : list A) : list A :=
  match l with
  | [] => [x]
  | y :: l' => if compareFn x y <=? 0 then x :: l else y :: place x l'
  end.

Definition sort (l : list A) : list A := foldr place [] l.
End Sort.

(** [const t = a[m]; a[m] = a[i]; a[i] = t] for two indices of the
    array; the sources never reach the other case. *)
Definition swap {A : Type} (a : list A) (m i : nat) : list A :=
  match a !! m, a !! i with
  | Some am, Some ai => <[i := am]> (<[m := ai]> a)
  | _, _ => a
  end.
End JsArray.

(* ===================================================================== *)
(** * Part 5. The suggestions route (app/api/suggestions/route.ts)       *)
(* ===================================================================== *)

Module Db.
(** A row of the table [suggestions]; [created_at] is the instant of the
    timestamp, in milliseconds. *)
Record Suggestion : Type := mkSuggestion {
  id : string;
  agenda_id : string;
  user_id : string;
  content : string;
  author_name : string;
  status : string;
  created_at : Z
}.
End Db.

Module RateLimit.

(** A request that the limiter let through. *)
Record Hit : Type := mkHit {
  name : string;
  ip : string;
  time : Z
}.

Definition recent (name0 ip0 : string) (now windowMs : Z) (h : Hit) : bool :=
  String.eqb (name h) name0 && String.eqb (ip h) ip0 && (now - windowMs <? time h).

(** Modelled from the spec: [checkRateLimit] of lib/security/rate-limit,
    which the route imports and calls with the limit 5 and the window of
    10 minutes. The spec says "a per-IP rate limit (5 per 10 minutes)" and
    "the 6th suggestion POST from the same IP within 10 minutes is
    rejected": a request is let through, and recorded, when fewer than
    [limit] requests of its address were let through under the same name
    in the [windowMs] milliseconds before it; otherwise it is rejected.
    The result is [true] for [{ ok: true }]. *)
Definition checkRateLimit
    (log : list Hit) (name0 ip0 : string) (now limit windowMs : Z)
    : bool * list Hit :=
  if Z.of_nat (length (List.filter (recent name0 ip0 now windowMs) log)) <? limit
  then (true, mkHit name0 ip0 now :: log)
  else (false, log).

(** The requests of one address that were let through under a name. *)
Definition hitsOf (name0 ip0 : string) (log : list Hit) : list Hit :=
  List.filter (fun h => String.eqb (name h) name0 && String.eqb (ip h) ip0) log.

End RateLimit.

Module SuggestionsRoute.

(** The columns that [GET] selects:
    [select(`id, content, author_name, created_at`)]. *)
Record Item : Type := mkItem {
  id : string;
  content : string;
  author_name : string;
  created_at : Z
}.

Definition selectItem (r : Db.Suggestion) : Item :=
  mkItem (Db.id r) (Db.content r) (Db.author_name r) (Db.created_at r).

(** A field of the JSON body: a string, or anything else (a number, a
    boolean, [null], an object, an array, or the [undefined] of a field
    that is absent), of which the route only observes whether it is
    truthy; no such value has a [trim] method. *)
Inductive Value : Type :=
| VString (s : string)
| VOther (truthy : bool).

(** The body after [await request.json()] and the destructuring;
    [agenda_id] is a string when it is present, as the client sends it. *)
Record Body : Type := mkBody {
  agenda_id : option string;
  body_content : Value;
  body_author_name : Value
}.

(** A request: the answer of [isAllowedOrigin(request)] (lib/security/origin
    is not among the sources), the address that the limiter sees, the
    instant of arrival, and the body, [None] when [request.json()] throws. *)
Record Request : Type := mkRequest {
  originAllowed : bool;
  ip : string;
  arrival : Z;
  body : option Body
}.

(** What the hosted services answer during one request. Both handlers
    await [createClient()] before they validate the agenda id; the second
    call, inside [getOrCreateAgendaUUID], is in the same request and is
    fulfilled with the same client, whose lookup of the agenda is
    [findAgenda]. *)
Record Backend : Type := mkBackend {
  getUser : AuthResult;
  (* from("agendas").select("id").eq("sequence_id", n).single() *)
  findAgenda : string -> Single string;
  (* from("agendas").select("title").eq("id", queryId).single() *)
  agendaTitle : string -> Single string;
  (* from("system_settings").select("auto_approve_suggestions").single() *)
  systemSettings : Single (option bool);
  (* the select of GET, the insert of POST: does the database report an error *)
  selectError : bool;
  insertError : bool;
  (* the id and the timestamp that the database gives to a new row *)
  newId : string;
  now : Z
}.

Record Email : Type := mkEmail {
  email_author_name : string;
  email_content : string;
  agenda_title : string
}.

Record World : Type := mkWorld {
  rateLimit : list RateLimit.Hit;
  suggestions : list Db.Suggestion;
  emails : list Email
}.

Inductive Payload : Type :=
| Error (error : string)
| Feed (suggestions : list Item) (agenda_id : string)
| Created (suggestion : Db.Suggestion) (message : string) (autoApproved : bool).

Inductive Response : Type :=
| Json (status : Z) (payload : Payload)
| RateLimited.        (* [rl.response], built by the limiter *)

(** [!id] for a string that may be absent. *)
Definition falsy (v : option string) : bool :=
  match v with
  | None => true
  | Some EmptyString => true
  | Some _ => false
  end.

(** The rows that the query of [GET] returns:
    [.eq("agenda_id", queryId).eq("status", "approved")
     .order("created_at", { ascending: false })]. *)
Definition approvedOf (queryId : string) (r : Db.Suggestion) : bool :=
  String.eqb (Db.agenda_id r) queryId && String.eqb (Db.status r) "approved".

Definition newestFirst (a b : Db.Suggestion) : Z := Db.created_at b - Db.created_at a.

Definition queryApproved (table : list Db.Suggestion) (queryId : string) : list Item :=
  map selectItem (JsArray.sort newestFirst (List.filter (approvedOf queryId) table)).

Definition invalidAgenda (v : UuidHelpers.Validation) : Response :=
  Json 400 (Error (match UuidHelpers.error v with
                   | Some (String c e) => String c e
                   | _ => "Invalid agenda ID"
                   end)).

Definition GET (be : Backend) (w : World) (agendaId : option string) : Response :=
  match agendaId with
  | None | Some EmptyString => Json 400 (Error "agenda_id parameter is required")
  | Some agendaId =>
      let validation :=
        UuidHelpers.validateAndNormalizeAgendaId (Fulfilled (findAgenda be)) agendaId in
      if negb (UuidHelpers.isValid validation) || falsy (UuidHelpers.agendaUUID validation)
      then invalidAgenda validation
      else
        let queryId := default EmptyString (UuidHelpers.agendaUUID validation) in
        if selectError be then Json 500 (Error "Database error")
        else Json 200 (Feed (queryApproved (suggestions w) queryId) queryId)
  end.

(** [!v || v.trim().length === 0] *)
Inductive Checked : Type :=
| Required              (* the guard holds: the field is missing or blank *)
| Throws                (* [v.trim] is not a function *)
| Given (s : string).   (* the guard fails: [s] is the string *)

Definition check (v : Value) : Checked :=
  match v with
  | VOther false => Required
  | VOther true => Throws
  | VString s =>
      match s with
      | EmptyString => Required
      | _ => if (String.length (Js.trim s) =? 0)%nat then Required else Given s
      end
  end.


Definition autoApproveOf (settings : Single (option bool)) : bool :=
  match settings with
  | Data (Some true) => true
  | _ => false
  end.

Definition titleOf (agendaData : Single string) : string :=
  match agendaData with
  | Data (String c t) => String c t
  | _ => "Unknown Agenda"
  end.

Definition confirmationMessage (autoApprove : bool) : string :=
  if autoApprove
  then "Thank you for your suggestion! Our team will review it and compile it in our next version of the manifesto."
  else "Thanks for the suggestion! Due to many malicious actors, auto approve system is currently disabled but it is submitted to the team. It will be shown on website if it's approved.".

Definition POST (be : Backend) (w : World) (req : Request) : Response * World :=
  if negb (originAllowed req) then (Json 403 (Error "Forbidden"), w)
  else
    let '(ok, log) :=
      RateLimit.checkRateLimit (rateLimit w) "suggestion-create" (ip req) (arrival req)
                               5 (10 * 60 * 1000) in
    let w := mkWorld log (suggestions w) (emails w) in
    if negb ok then (RateLimited, w)
    else if authError (getUser be) then (Json 401 (Error "Authentication failed"), w)
    else
      match user (getUser be) with
      | None => (Json 401 (Error "User not authenticated"), w)
      | Some uid =>
          match body req with
          | None => (Json 500 (Error "Internal server error"), w)
          | Some b =>
              if falsy (agenda_id b) then (Json 400 (Error "agenda_id is required"), w)
              else
                match check (body_content b) with
                | Required => (Json 400 (Error "content is required"), w)
                | Throws => (Json 500 (Error "Internal server error"), w)
                | Given content =>
                    match check (body_author_name b) with
                    | Required => (Json 400 (Error "author_name is required"), w)
                    | Throws => (Json 500 (Error "Internal server error"), w)
                    | Given author_name =>
                        let validation :=
                          UuidHelpers.validateAndNormalizeAgendaId
                            (Fulfilled (findAgenda be))
                            (default EmptyString (agenda_id b)) in
                        if negb (UuidHelpers.isValid validation)
                           || falsy (UuidHelpers.agendaUUID validation)
                        then (invalidAgenda validation, w)
                        else
                          let queryId :=
                            default EmptyString (UuidHelpers.agendaUUID validation) in
                          let agendaData := agendaTitle be queryId in
                          let autoApprove := autoApproveOf (systemSettings be) in
                          if insertError be
                          then (Json 500 (Error "Failed to create suggestion"), w)
                          else
                            let suggestion :=
                              Db.mkSuggestion (newId be) queryId uid
                                (Js.trim content) (Js.trim author_name)
                                (if autoApprove then "approved" else "pending")
                                (now be) in
                            let email :=
                              mkEmail (Js.trim author_name) (Js.trim content)
                                      (titleOf agendaData) in
                            (Json 200 (Created suggestion (confirmationMessage autoApprove)
                                               autoApprove),
                             mkWorld (rateLimit w)
                                     (suggestions w ++ [suggestion])
                                     (emails w ++ [email]))
                    end
                end
          end
      end.

(** A sequence of requests, each with the answers of the services during
    it: the responses, in order, and the world at the end. *)
Fixpoint serve (w : World) (reqs : list (Backend * Request)) : list Response * World :=
  match reqs with
  | [] => ([], w)
  | (be, req) :: reqs' =>
      let '(r, w') := POST be w req in
      let '(rs, w'') := serve w' reqs' in
      (r :: rs, w'')
  end.

End SuggestionsRoute.

(* ===================================================================== *)
(** * Part 6. Pagination of the testimonials route                       *)
(*            (app/api/testimonials/route.ts)                            *)
(* ===================================================================== *)

Module TestimonialsRoute.

(** A value of [Number(...)]. Every finite double is a rational, and
    the route only compares the value and takes a minimum, which are exact
    on doubles, so a finite value is held as that rational. *)
Inductive Num : Type :=
| NaN
| Infinity (negative : bool)
| Fin (q : Q).

Definition DEFAULT_LIMIT : Num := Fin 50.

(** [Number.isFinite] *)
Definition isFinite (n : Num) : bool :=
  match n with
  | Fin _ => true
  | _ => false
  end.

(** [a > b] and [a >= b]; a comparison with [NaN] is false. *)
Definition gt (a b : Num) : bool :=
  match a, b with
  | NaN, _ | _, NaN => false
  | Infinity n, Infinity n' => negb n && n'
  | Infinity n, Fin _ => negb n
  | Fin _, Infinity n' => n'
  | Fin p, Fin q => negb (Qle_bool p q)
  end.

Definition ge (a b : Num) : bool :=
  match a, b with
  | NaN, _ | _, NaN => false
  | Infinity n, Infinity n' => negb n || n'
  | Infinity n, Fin _ => negb n
  | Fin _, Infinity n' => n'
  | Fin p, Fin q => Qle_bool q p
  end.

(** [Math.min] *)
Definition min (a b : Num) : Num :=
  match a, b with
  | NaN, _ | _, NaN => NaN
  | Infinity true, _ | _, Infinity true => Infinity true
  | Infinity false, x | x, Infinity false => x
  | Fin p, Fin q => if Qle_bool p q then Fin p else Fin q
  end.

Section Get.
(** The conversion of a string to a number ([StringToNumber] of the
    language), which [Number] applies to a parameter that is present. *)
Variable StringToNumber : string -> Num.

(** [Number(searchParams.get(name))]: [get] answers [null] for a
    parameter that is absent, and [Number(null)] is 0. *)
Definition Number (param : option string) : Num :=
  match param with
  | None => Fin 0
  | Some s => StringToNumber s
  end.

Definition limitOf (limitParam : Num) : Num :=
  if isFinite limitParam && gt limitParam (Fin 0)
  then min limitParam (Fin 200)
  else DEFAULT_LIMIT.

Definition offsetOf (offsetParam : Num) : Num :=
  if isFinite offsetParam && ge offsetParam (Fin 0)
  then offsetParam
  else Fin 0.

(** The [limit] and the [offset] that [GET] computes from the query
    string. *)
Definition pagination (limit offset : option string) : Num * Num :=
  let limitParam := Number limit in
  let offsetParam := Number offset in
  (limitOf limitParam, offsetOf offsetParam).
End Get.

(** ** [POST]: a testimonial written by an admin or a moderator *)

(** What the services answer during one [POST]: the user of
    [supabase.auth.getUser()] (the route does not read the error), the
    role of [from('profiles').select('role').eq('id', user.id).single()],
    and the message of the error of the insert, if there is one. *)
Record PostBackend : Type := mkPostBackend {
  postUser : option string;
  postProfile : string -> Single (option string);
  postInsertError : option string
}.

(** The responses of [POST]; the body of a row is of any type [Row], the
    route hands it to the database as it is. *)
Inductive PostResponse (Row : Type) : Type :=
| PostError (status : Z) (error : string)
| PostData (data : Row)
| PostUnhandled.     (* [request.json()] throws, outside any [try] *)
Arguments PostError {Row} status error.
Arguments PostData {Row} data.
Arguments PostUnhandled {Row}.

(** [!profile?.role || (profile.role !== 'admin' && profile.role !== 'moderator')] *)
Definition notStaff (profile : Single (option string)) : bool :=
  match profile with
  | Data (Some role) =>
      match role with
      | EmptyString => true
      | _ => negb (String.eqb role "admin") && negb (String.eqb role "moderator")
      end
  | _ => true
  end.

Definition POST {Row : Type} (be : PostBackend) (testimonials : list Row)
    (body : option Row) : PostResponse Row * list Row :=
  match postUser be with
  | None => (PostError 401 "Unauthorized", testimonials)
  | Some uid =>
      if notStaff (postProfile be uid) then (PostError 403 "Forbidden", testimonials)
      else
        match body with
        | None => (PostUnhandled, testimonials)
        | Some row =>
            match postInsertError be with
            | Some message => (PostError 500 message, testimonials)
            | None => (PostData row, (testimonials ++ [row])%list)
            end
        end
  end.

End TestimonialsRoute.

(* ===================================================================== *)
(** * Part 7. The suggestion list (components/suggestion-list.tsx)       *)
(* ===================================================================== *)

Module SuggestionList.

Inductive VoteType : Type := like | dislike.

Definition VoteType_eqb (a b : VoteType) : bool :=
  match a, b with
  | like, like | dislike, dislike => true
  | _, _ => false
  end.

Record Counts : Type := mkCounts {
  likes : Z;
  dislikes : Z
}.

Record Suggestion : Type := mkSuggestion {
  id : string;
  content : string;
  author_name : string;
  created_at : Z;
  user_id : string
}.

Record SuggestionWithScore : Type := mkScored {
  suggestion : Suggestion;
  s_likes : Z;
  s_dislikes : Z;
  netScore : Z;
  totalEngagement : Z
}.

Inductive SortBy : Type := popularity | newest | oldest.

(** The state of the component that voting and sorting read and write:
    [userVotes] ([None] in the map is [null]) and [voteCounts]. *)
Record State : Type := mkState {
  userVotes : gmap string (option VoteType);
  voteCounts : gmap string Counts
}.

(** [userVotes[id]]: [undefined] and [null] both are "no vote". *)
Definition currentVoteOf (st : State) (id0 : string) : option VoteType :=
  default None (userVotes st !! id0).

(** [voteCounts[id] || { likes: 0, dislikes: 0 }] *)
Definition currentCountsOf (st : State) (id0 : string) : Counts :=
  default (mkCounts 0 0) (voteCounts st !! id0).

Definition isVote (v : option VoteType) (t : VoteType) : bool :=
  match v with
  | Some t' => VoteType_eqb t' t
  | None => false
  end.

(** The optimistic part of [handleVote]: the new vote and the counts
    handed to [setUserVotes] and [setVoteCounts]. *)
Definition optimistic (currentVote : option VoteType) (currentCounts : Counts)
    (type : VoteType) : option VoteType * Counts :=
  let likes0 := likes currentCounts in
  let dislikes0 := dislikes currentCounts in
  let '(newVote, likes1, dislikes1) :=
    if isVote currentVote type then
      match type with
      | like => (None, likes0 - 1, dislikes0)
      | dislike => (None, likes0, dislikes0 - 1)
      end
    else
      let '(l, d) :=
        if isVote currentVote like then (likes0 - 1, dislikes0)
        else if isVote currentVote dislike then (likes0, dislikes0 - 1)
        else (likes0, dislikes0) in
      match type with
      | like => (Some type, l + 1, d)
      | dislike => (Some type, l, d + 1)
      end in
  (newVote, mkCounts (Z.max 0 likes1) (Z.max 0 dislikes1)).

(** What comes back from [POST /api/suggestions/:id/vote]. *)
Inductive Reply : Type :=
| FetchThrows                                        (* [fetch] rejects *)
| NotOk                                              (* [!response.ok] *)
| Ok (userVote : option VoteType) (likes dislikes : Z).

Definition setVote (st : State) (id0 : string) (v : option VoteType) (c : Counts) : State :=
  mkState (<[id0 := v]> (userVotes st)) (<[id0 := c]> (voteCounts st)).

(** The state right after the optimistic update, before the reply. *)
Definition handleVoteOptimistic (signedIn : bool) (st : State)
    (id0 : string) (type : VoteType) : State :=
  if negb signedIn then st
  else
    let '(newVote, counts) :=
      optimistic (currentVoteOf st id0) (currentCountsOf st id0) type in
    setVote st id0 newVote counts.

(** [handleVote] to its end. *)
Definition handleVote (signedIn : bool) (st : State)
    (id0 : string) (type : VoteType) (reply : Reply) : State :=
  if negb signedIn then st
  else
    let currentVote := currentVoteOf st id0 in
    let currentCounts := currentCountsOf st id0 in
    let st1 := handleVoteOptimistic signedIn st id0 type in
    match reply with
    | FetchThrows => st1
    | NotOk => setVote st1 id0 currentVote currentCounts
    | Ok v l d => setVote st1 id0 v (mkCounts l d)
    end.

(** The count of one type of vote, and the other type. *)
Definition countOf (t : VoteType) (c : Counts) : Z :=
  match t with
  | like => likes c
  | dislike => dislikes c
  end.

Definition opposite (t : VoteType) : VoteType :=
  match t with
  | like => dislike
  | dislike => like
  end.

(** [voteCounts[s.id]?.likes || 0], and the same for the dislikes. *)
Definition withScore (voteCounts0 : gmap string Counts) (s : Suggestion) : SuggestionWithScore :=
  let likes0 := from_option likes 0 (voteCounts0 !! id s) in
  let dislikes0 := from_option dislikes 0 (voteCounts0 !! id s) in
  mkScored s likes0 dislikes0 (likes0 - dislikes0) (likes0 + dislikes0).

Definition compareFn (sortBy : SortBy) (a b : SuggestionWithScore) : Z :=
  match sortBy with
  | popularity =>
      if negb (netScore a =? netScore b) then netScore b - netScore a
      else totalEngagement b - totalEngagement a
  | newest => created_at (suggestion b) - created_at (suggestion a)
  | oldest => created_at (suggestion a) - created_at (suggestion b)
  end.

Definition sortedSuggestions (suggestions : list Suggestion)
    (voteCounts0 : gmap string Counts) (sortBy : SortBy) : list SuggestionWithScore :=
  JsArray.sort (compareFn sortBy) (map (withScore voteCounts0) suggestions).

(** [isTopSuggestion] of [SuggestionItem]:
    [sortBy === "popularity" && index < 3 && netScore > 0]. *)
Definition isTopSuggestion (sortBy : SortBy) (index : nat) (s : SuggestionWithScore) : bool :=
  match sortBy with
  | popularity => (index <? 3)%nat && (0 <? netScore s)
  | _ => false
  end.

(** The flag of every row of the list that is shown. *)
Definition topFlags (sortBy : SortBy) (l : list SuggestionWithScore) : list bool :=
  imap (isTopSuggestion sortBy) l.

End SuggestionList.

(* ===================================================================== *)
(** * Part 8. The manifesto list (components/manifesto-list.tsx)         *)
(* ===================================================================== *)

Module ManifestoList.

Record ManifestoSummaryItem : Type := mkItem {
  id : string;
  title : string;
  description : string;
  category : string;
  priority : string;
  timeline : string
}.

Record Vote : Type := mkVote {
  manifesto_id : string;
  vote_type : string
}.

Record Counts : Type := mkCounts {
  likes : Z;
  dislikes : Z
}.

Definition countVote (map0 : gmap string Counts) (vote : Vote) : gmap string Counts :=
  let current := default (mkCounts 0 0) (map0 !! manifesto_id vote) in
  let current :=
    if String.eqb (vote_type vote) "like"
    then mkCounts (likes current + 1) (dislikes current)
    else if String.eqb (vote_type vote) "dislike"
    then mkCounts (likes current) (dislikes current + 1)
    else current in
  <[manifesto_id vote := current]> map0.

Definition voteCountsMap (votesData : list Vote) : gmap string Counts :=
  fold_left countVote votesData ∅.

Definition score (voteCountsMap0 : gmap string Counts) (a : ManifestoSummaryItem) : Z :=
  let aVotes := default (mkCounts 0 0) (voteCountsMap0 !! id a) in
  likes aVotes - dislikes aVotes.

Definition compareFn (voteCountsMap0 : gmap string Counts)
    (a b : ManifestoSummaryItem) : Z :=
  let aScore := score voteCountsMap0 a in
  let bScore := score voteCountsMap0 b in
  bScore - aScore.

Definition sortedData (filteredData : list ManifestoSummaryItem)
    (voteCountsMap0 : gmap string Counts) : list ManifestoSummaryItem :=
  match filteredData with
  | [] => []
  | _ => JsArray.sort (compareFn voteCountsMap0) filteredData
  end.

(** The seed. [randomSeed] is [null] or a double of [Math.random()], in
    [0, 1). With [x = randomSeed * 1000000], a double that is not
    negative, the remainder [x % m] of doubles is exact, and its floor
    is [floor(x) mod m]: the index depends on the seed through
    [floor(randomSeed * 1000000)] alone, which is what [Seed] holds. *)
Definition Seed : Type := N.

(** [Math.floor((randomSeed * 1000000) % m)] *)
Definition index (scaled : Seed) (m : nat) : nat :=
  N.to_nat (scaled mod N.of_nat m).

(** The loop [while (m) { const i = ... % m--; swap m, i }]; [m] is the
    value of the variable when the test is made. *)
Fixpoint shuffleLoop {A : Type} (scaled : Seed) (m : nat) (shuffled : list A) : list A :=
  match m with
  | O => shuffled
  | S m' =>
      let i := index scaled m in
      shuffleLoop scaled m' (JsArray.swap shuffled m' i)
  end.

Definition shuffledData {A : Type} (randomSeed : option Seed) (sortedData0 : list A) : list A :=
  match randomSeed, sortedData0 with
  | None, _ | _, [] => sortedData0
  | Some scaled, _ => shuffleLoop scaled (length sortedData0) sortedData0
  end.

(** ** The filters *)

Record FilterState : Type := mkFilters {
  searchQuery : string;
  selectedCategories : list string;
  selectedPriorities : list string;
  timelineRange : Z * Z;
  showAdvancedFilters : bool
}.

(** The initial state, which [clearFilters] sets again. *)
Definition clearFilters : FilterState := mkFilters "" [] [] (6, 60) false.

(** The names that every object inherits from [Object.prototype]: looked
    up in an object literal, each of them gives a function or an object,
    not [undefined]. *)
Definition inherited : list string :=
  ["constructor"; "hasOwnProperty"; "isPrototypeOf"; "propertyIsEnumerable";
   "toLocaleString"; "toString"; "valueOf"; "__proto__"; "__defineGetter__";
   "__defineSetter__"; "__lookupGetter__"; "__lookupSetter__"].

Definition timelineMap : list (string * Z) :=
  [("180 days", 6); ("6 months", 6); ("1 year", 12); ("18 months", 18);
   ("2 years", 24); ("3 years", 36); ("5 years", 60)].

Fixpoint lookupMap (key : string) (m : list (string * Z)) : option Z :=
  match m with
  | [] => None
  | (k, v) :: m' => if String.eqb k key then Some v else lookupMap key m'
  end.

(** [timelineMap[timeline] || 12]. The result is [None] for an inherited
    name: the value is then truthy and not a number, and each comparison
    of it with a number is false. *)
Definition getTimelineInMonths (timeline : string) : option Z :=
  match lookupMap timeline timelineMap with
  | Some months => Some months
  | None => if existsb (String.eqb timeline) inherited then None else Some 12
  end.

(** [l.includes(x)] for an array of strings. *)
Definition includesString (l : list string) (x : string) : bool :=
  existsb (String.eqb x) l.

Definition nonEmpty {A : Type} (l : list A) : bool :=
  match l with
  | [] => false
  | _ => true
  end.

(** The callback of [manifestoData.filter] in [filteredData]. *)
Definition keeps (filters : FilterState) (item : ManifestoSummaryItem) : bool :=
  let search :=
    match searchQuery filters with
    | EmptyString => true
    | query =>
        let searchLower := Js.toLowerCase query in
        let matchesTitle := Js.includes searchLower (Js.toLowerCase (title item)) in
        let matchesDescription :=
          Js.includes searchLower (Js.toLowerCase (description item)) in
        let matchesCategory := Js.includes searchLower (Js.toLowerCase (category item)) in
        matchesTitle || matchesDescription || matchesCategory
    end in
  if negb search then false
  else if nonEmpty (selectedCategories filters)
          && negb (includesString (selectedCategories filters) (category item))
  then false
  else if nonEmpty (selectedPriorities filters)
          && negb (includesString (selectedPriorities filters) (priority item))
  then false
  else
    match getTimelineInMonths (timeline item) with
    | Some itemTimelineInMonths =>
        if (itemTimelineInMonths <? fst (timelineRange filters))
           || (snd (timelineRange filters) <? itemTimelineInMonths)
        then false else true
    | None => true
    end.

Definition filteredData (manifestoData : list ManifestoSummaryItem)
    (filters : FilterState) : list ManifestoSummaryItem :=
  match manifestoData with
  | [] => []
  | _ => List.filter (keeps filters) manifestoData
  end.

(** [hasActiveFilters], read as a condition. *)
Definition hasActiveFilters (filters : FilterState) : bool :=
  negb (String.eqb (searchQuery filters) "")
  || nonEmpty (selectedCategories filters)
  || nonEmpty (selectedPriorities filters)
  || negb (fst (timelineRange filters) =? 6)
  || negb (snd (timelineRange filters) =? 60).

(** [handleCategoryChange] and [handlePriorityChange]. *)
Definition handleCategoryChange (category0 : string) (checked : bool)
    (prev : FilterState) : FilterState :=
  mkFilters (searchQuery prev)
    (if checked then (selectedCategories prev ++ [category0])%list
     else List.filter (fun c => negb (String.eqb c category0)) (selectedCategories prev))
    (selectedPriorities prev) (timelineRange prev) (showAdvancedFilters prev).

Definition handlePriorityChange (priority0 : string) (checked : bool)
    (prev : FilterState) : FilterState :=
  mkFilters (searchQuery prev) (selectedCategories prev)
    (if checked then (selectedPriorities prev ++ [priority0])%list
     else List.filter (fun c => negb (String.eqb c priority0)) (selectedPriorities prev))
    (timelineRange prev) (showAdvancedFilters prev).

(** The number of votes of one type that the list holds for an item. *)
Definition tally (type id0 : string) (votesData : list Vote) : Z :=
  Z.of_nat (length (List.filter
    (fun v => String.eqb (manifesto_id v) id0 && String.eqb (vote_type v) type) votesData)).

(** The data of [useVotes()] (hooks/use-cached-data.ts): the query is
    disabled and its function returns [[]], so the component reads the
    default of the destructuring, an empty array. *)
Definition useVotes : list Vote := [].

End ManifestoList.

(* ===================================================================== *)
(** * Part 9. The server client factory (lib/supabase/server.ts)         *)
(* ===================================================================== *)

Module SupabaseServer.

Inductive Client : Type :=
| Mock                                  (* createMockClient() *)
| Server (url key : string).            (* createServerClient(url, key, ...) *)

(** The test of [createClient] and of [createServiceClient]:
    [!url || !key || url === "https://placeholder.supabase.co"
     || key?.includes("placeholder")]. *)
Definition connect (url key : option string) : Client :=
  match url, key with
  | Some (String c u), Some (String d k) =>
      if String.eqb (String c u) "https://placeholder.supabase.co"
         || Js.includes "placeholder" (String d k)
      then Mock
      else Server (String c u) (String d k)
  | _, _ => Mock
  end.

Definition createClient (env : Middleware.Env) : Client :=
  connect (Middleware.NEXT_PUBLIC_SUPABASE_URL env)
          (Middleware.NEXT_PUBLIC_SUPABASE_ANON_KEY env).

Definition createServiceClient (url serviceRoleKey : option string) : Client :=
  connect url serviceRoleKey.

(** What the mock client answers: [getUser] has no user and no error,
    [single()] has no data and no error, a list has no row and no error. *)
Definition mockBackend : SuggestionsRoute.Backend :=
  SuggestionsRoute.mkBackend (mkAuth None false)
    (fun _ => PGRST116) (fun _ => PGRST116) PGRST116
    false false EmptyString 0.

(** The services as a route sees them through its client: the mock
    answers for itself and shows empty tables. *)
Definition backendOf (c : Client) (be : SuggestionsRoute.Backend) : SuggestionsRoute.Backend :=
  match c with
  | Mock => mockBackend
  | Server _ _ => be
  end.

Definition tablesOf (c : Client) (w : SuggestionsRoute.World) : SuggestionsRoute.World :=
  match c with
  | Mock => SuggestionsRoute.mkWorld (SuggestionsRoute.rateLimit w) [] []
  | Server _ _ => w
  end.

End SupabaseServer.

(* ===================================================================== *)
(** * Properties                                                          *)
(* ===================================================================== *)

(** ** Strings *)

#[local] Arguments String.append !s1 s2 : simpl nomatch.

Section StringFacts.

Lemma length_append (s t : string) :
  String.length (s +:+ t) = (String.length s + String.length t)%nat.
Proof. induction s as [|c s IH]; simpl; [reflexivity | now rewrite IH]. Qed.

Lemma append_assoc (s t u : string) : (s +:+ t) +:+ u = s +:+ (t +:+ u).
Proof. induction s as [|c s IH]; simpl; [reflexivity | now rewrite IH]. Qed.

Lemma append_empty_r (s : string) : s +:+ EmptyString = s.
Proof. induction s as [|c s IH]; simpl; [reflexivity | now rewrite IH]. Qed.

Lemma length_repeat_char (c : ascii) (n : nat) :
  String.length (Js.repeat_char c n) = n.
Proof. induction n as [|n IH]; simpl; [reflexivity | now rewrite IH]. Qed.

Lemma prefix_append (p s : string) : String.prefix p (p +:+ s) = true.
Proof.
  induction p as [|c p IH]; simpl; [now destruct s|].
  destruct (ascii_dec c c) as [_|ne]; [exact IH | now destruct ne].
Qed.

Lemma drop_append (p s : string) : Js.drop (String.length p) (p +:+ s) = s.
Proof. induction p as [|c p IH]; simpl; [now destruct s | exact IH]. Qed.

Lemma replace_prefix (p s : string) : Js.replace p EmptyString (p +:+ s) = s.
Proof.
  destruct s as [|c s]; simpl.
  - rewrite append_empty_r.
    destruct p as [|d p]; simpl; [reflexivity|].
    pose proof (prefix_append (String d p) EmptyString) as H.
    rewrite append_empty_r in H. simpl in H. rewrite H.
    pose proof (drop_append (String d p) EmptyString) as D.
    rewrite append_empty_r in D. simpl in D. now rewrite D.
  - destruct p as [|d p]; simpl; [reflexivity|].
    pose proof (prefix_append (String d p) (String c s)) as H.
    simpl in H. rewrite H.
    pose proof (drop_append (String d p) (String c s)) as D.
    simpl in D. now rewrite D.
Qed.

(** [substring(0, n)] of a string that has at most [n] characters. *)
Lemma substring_all (n : nat) (s : string) :
  (String.length s <= n)%nat -> Js.substring 0 n s = s.
Proof.
  unfold Js.substring. rewrite Nat.min_0_l, Nat.max_0_l, Nat.sub_0_r.
  revert n; induction s as [|c s IH]; intros [|n] Hn; simpl in *;
    try reflexivity; try lia.
  f_equal. apply IH. lia.
Qed.

Lemma String_substring_past (a m : nat) (s : string) :
  (String.length s <= a)%nat -> String.substring a m s = EmptyString.
Proof.
  revert s; induction a as [|a IH]; intros [|c s] Ha; simpl in *;
    try reflexivity; try lia.
  - now destruct m.
  - apply IH. lia.
Qed.

(** [substring(a, b)] past the end of the string. *)
Lemma substring_past (a b : nat) (s : string) :
  (String.length s <= a)%nat -> (a <= b)%nat -> Js.substring a b s = EmptyString.
Proof.
  intros Ha Hab. unfold Js.substring.
  rewrite Nat.min_l by lia. now apply String_substring_past.
Qed.

End StringFacts.

(** ** Matching a string against character classes *)

Section Classes.

Import Js.

Lemma all_in_append p s t : all_in p (s +:+ t) = all_in p s && all_in p t.
Proof.
  induction s as [|c s IH]; simpl; [reflexivity|].
  now rewrite IH, andb_assoc.
Qed.

Lemma all_in_repeat_char p c n : p c = true -> all_in p (Js.repeat_char c n) = true.
Proof. intros H. induction n as [|n IH]; simpl; [reflexivity | now rewrite H, IH]. Qed.

Lemma all_in_weaken (p q : ascii -> bool) s :
  (forall c, p c = true -> q c = true) -> all_in p s = true -> all_in q s = true.
Proof.
  intros Hpq. induction s as [|c s IH]; simpl; [reflexivity|].
  intros [Hc Hs]%andb_true_iff. rewrite (Hpq _ Hc). now apply IH.
Qed.

Lemma test_classes_repeat p n s :
  Js.test_classes (repeat p n) s = (String.length s =? n)%nat && all_in p s.
Proof.
  revert s; induction n as [|n IH]; intros [|c s]; simpl; try reflexivity.
  - now rewrite IH, andb_comm, <- andb_assoc, (andb_comm (all_in p s)).
Qed.

Lemma test_classes_app cls1 cls2 s1 s2 :
  String.length s1 = length cls1 ->
  Js.test_classes (cls1 ++ cls2) (s1 +:+ s2)
  = Js.test_classes cls1 s1 && Js.test_classes cls2 s2.
Proof.
  revert s1; induction cls1 as [|p cls1 IH]; intros [|c s1] Hlen;
    simpl in *; try discriminate.
  - now destruct cls2, s2.
  - rewrite IH by congruence. now rewrite andb_assoc.
Qed.

Lemma is_digit_is_hex c : Js.is_digit c = true -> Js.is_hex c = true.
Proof. intros H. unfold Js.is_hex. now rewrite H. Qed.

Lemma is_digit_not_dash c : Js.is_digit c = true -> UuidHelpers.dash c = false.
Proof.
  unfold UuidHelpers.dash, Js.is_char. intros H.
  destruct (Ascii.eqb_spec "-"%char c) as [<-|]; [discriminate H | reflexivity].
Qed.

End Classes.

(** ** The hash and the hexadecimal digits *)

Section HashFacts.
Import Js UuidHelpers.

Lemma ToInt32_int32 z : int32 (ToInt32 z).
Proof.
  unfold int32, ToInt32.
  pose proof (Z.mod_pos_bound (z + 2 ^ 31) (2 ^ 32)). lia.
Qed.

Lemma ToInt32_id z : int32 z -> ToInt32 z = z.
Proof.
  unfold int32, ToInt32. intros H.
  rewrite Z.mod_small by lia. lia.
Qed.

Lemma hashStep_int32 hash char : int32 (hashStep hash char).
Proof.
  unfold hashStep, band. rewrite Z.land_diag. apply ToInt32_int32.
Qed.

Lemma hashLoop_int32 s hash : int32 hash -> int32 (hashLoop s hash).
Proof.
  revert hash; induction s as [|c s IH]; intros hash H; simpl; [exact H|].
  apply IH, hashStep_int32.
Qed.

Lemma hex_digit_is_hex d : 0 <= d < 16 -> is_hex (hex_digit d) = true.
Proof.
  intros H.
  assert (Hd : d = 0 \/ d = 1 \/ d = 2 \/ d = 3 \/ d = 4 \/ d = 5 \/ d = 6 \/ d = 7 \/
               d = 8 \/ d = 9 \/ d = 10 \/ d = 11 \/ d = 12 \/ d = 13 \/ d = 14 \/
               d = 15) by lia.
  repeat (destruct Hd as [-> | Hd]; [reflexivity|]). now subst d.
Qed.

(** With enough fuel, a number below [16^k] has at most [k] digits. *)
Lemma hex_digits_spec (k : nat) :
  forall (fuel : nat) (n : Z) (acc : string),
    (1 <= k <= fuel)%nat -> 0 <= n < 16 ^ Z.of_nat k ->
    exists ds, hex_digits fuel n acc = ds +:+ acc /\
               (1 <= String.length ds <= k)%nat /\
               all_in is_hex ds = true.
Proof.
  induction k as [|k IH]; intros fuel n acc Hk Hn; [lia|].
  destruct fuel as [|fuel]; [lia|]. simpl hex_digits.
  assert (Hmod : 0 <= n mod 16 < 16) by (apply Z.mod_pos_bound; lia).
  destruct (n / 16 =? 0) eqn:Hq.
  - exists (String (hex_digit (n mod 16)) EmptyString). simpl.
    rewrite hex_digit_is_hex by exact Hmod. repeat split; lia.
  - apply Z.eqb_neq in Hq.
    assert (Hk' : (1 <= k)%nat).
    { destruct k; [|lia]. change (16 ^ Z.of_nat 1) with 16 in Hn.
      rewrite Z.div_small in Hq by lia. congruence. }
    assert (Hn' : 0 <= n / 16 < 16 ^ Z.of_nat k).
    { split; [apply Z.div_pos; lia|].
      apply Z.div_lt_upper_bound; [lia|].
      rewrite Nat2Z.inj_succ, Z.pow_succ_r in Hn by lia. lia. }
    destruct (IH fuel (n / 16) (String (hex_digit (n mod 16)) acc)
                ltac:(lia) Hn') as (ds & -> & Hlen & Hall).
    exists (ds +:+ String (hex_digit (n mod 16)) EmptyString).
    rewrite append_assoc, length_append, all_in_append. simpl.
    rewrite Hall, hex_digit_is_hex by exact Hmod. repeat split; lia.
Qed.

Lemma toString16_spec (n : Z) :
  0 <= n < 16 ^ 8 ->
  (1 <= String.length (toString16 n) <= 8)%nat /\ all_in is_hex (toString16 n) = true.
Proof.
  intros Hn. unfold toString16.
  set (fuel := S (Z.to_nat (Z.log2 n))).
  assert (Hfuel : n < 2 ^ Z.of_nat fuel).
  { unfold fuel. rewrite Nat2Z.inj_succ, Z2Nat.id by apply Z.log2_nonneg.
    destruct (Z.eq_dec n 0) as [->|]; [reflexivity|].
    apply Z.log2_spec. lia. }
  destruct (hex_digits_spec (Nat.min 8 fuel) fuel n EmptyString) as (ds & E & Hlen & Hall).
  - unfold fuel. lia.
  - split; [lia|].
    destruct (Nat.le_ge_cases 8 fuel) as [H|H].
    + rewrite Nat.min_l by exact H. exact (proj2 Hn).
    + rewrite Nat.min_r by exact H.
      eapply Z.lt_le_trans; [exact Hfuel|].
      apply Z.pow_le_mono_l. lia.
  - rewrite E, append_empty_r. split; [lia | exact Hall].
Qed.

(** The variable [hex] has eight digits. *)
Lemma hexOf_spec manifestoId :
  String.length (hexOf manifestoId) = 8%nat /\ all_in is_hex (hexOf manifestoId) = true.
Proof.
  unfold hexOf.
  set (h := hashLoop _ 0).
  assert (Hh : int32 h) by (apply hashLoop_int32; unfold int32; lia).
  destruct (toString16_spec (Z.abs h)) as [Hlen Hall].
  { unfold int32 in Hh. change (16 ^ 8) with (2 ^ 32). lia. }
  unfold padStart. rewrite length_append, length_repeat_char, all_in_append.
  rewrite all_in_repeat_char by reflexivity. split; [lia | exact Hall].
Qed.

(** The shape of the identifier that is generated. *)
Lemma generateDeterministicUUID_shape manifestoId :
  generateDeterministicUUID manifestoId
  = hexOf manifestoId +:+ "-" +:+
    padStart 4 "0" (replace "manifesto-" "" manifestoId) +:+
    "-4000-8000-" +:+ hexOf manifestoId +:+ "0000".
Proof.
  destruct (hexOf_spec manifestoId) as [Hlen _].
  unfold generateDeterministicUUID. fold (hexOf manifestoId).
  rewrite !substring_all by lia.
  rewrite substring_past by lia.
  unfold padEnd. rewrite Hlen. reflexivity.
Qed.

End HashFacts.

(** ** Id normalisation *)

Section IdNormalisation.
Import Js UuidHelpers.

Lemma isManifestoFormat_manifesto n :
  test_digits n = true -> isManifestoFormat ("manifesto-" +:+ n) = true.
Proof.
  intros H. unfold isManifestoFormat.
  rewrite prefix_append.
  change 10%nat with (String.length "manifesto-").
  now rewrite drop_append, H.
Qed.

Lemma test_digits_all n : test_digits n = true -> all_in is_digit n = true.
Proof. destruct n; [discriminate | trivial]. Qed.

(** The tail of the identifier, after the number. *)
Lemma tail_matches hex :
  String.length hex = 8%nat -> all_in is_hex hex = true ->
  test_classes
    ([dash] ++ [is_1_5] ++ repeat is_hex 3 ++ [dash] ++
     [is_89ab] ++ repeat is_hex 3 ++ [dash] ++ repeat is_hex 12)
    ("-4000-8000-" +:+ hex +:+ "0000") = true.
Proof.
  intros Hlen Hall.
  change (test_classes (repeat is_hex 12) (hex +:+ "0000") = true).
  rewrite test_classes_repeat, length_append, all_in_append, Hlen, Hall.
  reflexivity.
Qed.

(** For a number of at most four digits the identifier that is generated
    has the shape of a UUID, and for a longer number it has not: the
    second group then holds the whole number. *)
Lemma generateDeterministicUUID_valid_iff n :
  test_digits n = true ->
  isValidUUID (generateDeterministicUUID ("manifesto-" +:+ n))
  = (String.length n <=? 4)%nat.
Proof.
  intros Hn. pose proof (test_digits_all n Hn) as Hd.
  rewrite generateDeterministicUUID_shape, replace_prefix.
  destruct (hexOf_spec ("manifesto-" +:+ n)) as [Hlen Hall].
  set (hex := hexOf _) in *.
  unfold isValidUUID, uuidRegex.
  rewrite test_classes_app by (rewrite Hlen; reflexivity).
  rewrite test_classes_repeat, Hlen, Hall.
  change (test_classes ([dash] ++ ?c) ("-" +:+ ?s)) with (test_classes c s).
  cbv beta iota. rewrite andb_true_l.
  destruct (String.length n <=? 4)%nat eqn:Hfour.
  - apply Nat.leb_le in Hfour.
    rewrite test_classes_app.
    + rewrite tail_matches by assumption.
      rewrite test_classes_repeat. unfold padStart.
      rewrite length_append, length_repeat_char, all_in_append.
      rewrite all_in_repeat_char by reflexivity.
      rewrite (all_in_weaken _ _ _ is_digit_is_hex Hd).
      replace (4 - String.length n + String.length n)%nat with 4%nat by lia.
      reflexivity.
    + unfold padStart. rewrite length_append, length_repeat_char.
      simpl length. lia.
  - apply Nat.leb_gt in Hfour.
    unfold padStart.
    replace (4 - String.length n)%nat with 0%nat by lia.
    destruct n as [|d1 [|d2 [|d3 [|d4 [|d5 n]]]]]; simpl in Hfour; try lia.
    simpl in Hd.
    apply andb_true_iff in Hd as [_ Hd]. apply andb_true_iff in Hd as [_ Hd].
    apply andb_true_iff in Hd as [_ Hd]. apply andb_true_iff in Hd as [_ Hd].
    apply andb_true_iff in Hd as [H5 _].
    simpl. rewrite (is_digit_not_dash _ H5).
    now rewrite !andb_false_r.
Qed.

(** The fallback of [getOrCreateAgendaUUID] does not depend on the
    request: whenever the table has no row for the number, the id that is
    returned is the generated one. *)
Lemma getOrCreateAgendaUUID_fallback find manifestoId :
  find (replace "manifesto-" "" manifestoId) = PGRST116 ->
  getOrCreateAgendaUUID (Fulfilled find) manifestoId
  = Fulfilled (Some (generateDeterministicUUID manifestoId)).
Proof. intros H. unfold getOrCreateAgendaUUID. now rewrite H. Qed.

(** C1. For a raw integer id [n], [toManifestoFormat n] is
    ["manifesto-" + n]; and [generateDeterministicUUID] is a function of
    its argument alone: two calls on the same string return the same
    string. *)
Theorem toManifestoFormat_generateDeterministicUUID_deterministic :
  (forall n : string,
      isRawInteger n = true -> toManifestoFormat n = "manifesto-" +:+ n) /\
  (forall a b : string,
      a = b -> generateDeterministicUUID a = generateDeterministicUUID b).
Proof.
  split.
  - intros n Hn. unfold toManifestoFormat. now rewrite Hn.
  - intros a b ->. reflexivity.
Qed.

Lemma toManifestoFormat_generateDeterministicUUID_witness :
  isRawInteger "42" = true /\
  toManifestoFormat "42" = "manifesto-42" /\
  generateDeterministicUUID (toManifestoFormat "42")
  = generateDeterministicUUID "manifesto-42".
Proof.
  split; [reflexivity|]. split.
  - exact (proj1 toManifestoFormat_generateDeterministicUUID_deterministic
             "42" eq_refl).
  - apply (proj2 toManifestoFormat_generateDeterministicUUID_deterministic).
    exact (proj1 toManifestoFormat_generateDeterministicUUID_deterministic
             "42" eq_refl).
Defined.

(** C7. On ["manifesto-12345"], which [isManifestoFormat] accepts, the
    identifier that [generateDeterministicUUID] returns has a second
    group of five characters, and [isValidUUID] rejects it. *)
Theorem generateDeterministicUUID_five_digits_invalid :
  isManifestoFormat "manifesto-12345" = true /\
  generateDeterministicUUID "manifesto-12345"
  = "17d6677b-12345-4000-8000-17d6677b0000" /\
  isValidUUID (generateDeterministicUUID "manifesto-12345") = false.
Proof. repeat split; vm_compute; reflexivity. Qed.

End IdNormalisation.

(** ** Sorting *)

Lemma StronglySorted_weaken {A : Type} (R S : A -> A -> Prop) (l : list A) :
  (forall x y, R x y -> S x y) -> StronglySorted R l -> StronglySorted S l.
Proof.
  intros HRS. induction 1 as [|x l Hl IH Hx]; constructor; [exact IH|].
  eapply List.Forall_impl; [|exact Hx]. intros y. apply HRS.
Qed.

Section SortFacts.
Import JsArray.
Context {A : Type} (compareFn : A -> A -> Z).

(** [a] may come before [b]. *)
Let before (a b : A) : Prop := compareFn a b <= 0.

(** The comparator orders [a] and [b] neither way. *)
Let ties (a b : A) : bool := (compareFn a b <=? 0) && (compareFn b a <=? 0).

Hypothesis before_total : forall a b, before a b \/ before b a.
Hypothesis before_trans : forall a b c, before a b -> before b c -> before a c.

Lemma place_Permutation x l : Permutation (place compareFn x l) (x :: l).
Proof.
  induction l as [|y l IH]; simpl; [reflexivity|].
  destruct (compareFn x y <=? 0); [reflexivity|].
  rewrite IH. apply perm_swap.
Qed.

Lemma sort_Permutation l : Permutation (sort compareFn l) l.
Proof.
  induction l as [|x l IH]; simpl; [reflexivity|].
  fold (sort compareFn l). rewrite place_Permutation. now constructor.
Qed.

Lemma place_StronglySorted x l :
  StronglySorted before l -> StronglySorted before (place compareFn x l).
Proof.
  induction 1 as [|y l Hl IH Hy]; simpl.
  - repeat constructor.
  - destruct (compareFn x y <=? 0) eqn:E.
    + apply Z.leb_le in E. constructor; [now constructor|].
      constructor; [exact E|].
      eapply List.Forall_impl; [|exact Hy]. intros z Hz. now apply before_trans with y.
    + apply Z.leb_gt in E. constructor; [exact IH|].
      eapply Permutation_Forall; [symmetry; apply place_Permutation|].
      constructor; [|exact Hy].
      destruct (before_total x y) as [H|H]; [unfold before in H; lia | exact H].
Qed.

Lemma sort_StronglySorted l : StronglySorted before (sort compareFn l).
Proof.
  induction l as [|x l IH]; simpl; [constructor|].
  now apply place_StronglySorted.
Qed.

(** Stability: the elements that the comparator ties with [z] keep the
    order that they have in the input. *)
Lemma place_ties z x l :
  List.filter (ties z) (place compareFn x l) = List.filter (ties z) (x :: l).
Proof.
  induction l as [|y l IH]; [reflexivity|].
  simpl place. destruct (compareFn x y <=? 0) eqn:E; [reflexivity|].
  apply Z.leb_gt in E.
  change (List.filter (ties z) (y :: place compareFn x l))
    with (if ties z y then y :: List.filter (ties z) (place compareFn x l)
          else List.filter (ties z) (place compareFn x l)).
  rewrite IH. simpl.
  destruct (ties z x) eqn:Hx, (ties z y) eqn:Hy; try reflexivity.
  exfalso. unfold ties in Hx, Hy.
  apply andb_true_iff in Hx as [_ Hx]. apply andb_true_iff in Hy as [Hy _].
  apply Z.leb_le in Hx, Hy.
  pose proof (before_trans x z y Hx Hy) as H. unfold before in H. lia.
Qed.

Lemma sort_stable z l :
  List.filter (ties z) (sort compareFn l) = List.filter (ties z) l.
Proof.
  induction l as [|x l IH]; [reflexivity|].
  simpl sort. fold (sort compareFn l). rewrite place_ties. simpl. now rewrite IH.
Qed.

End SortFacts.

Section Popularity.
Import SuggestionList.

Lemma popularity_before a b :
  compareFn popularity a b <= 0 <->
  netScore b <= netScore a /\
  (netScore a = netScore b -> totalEngagement b <= totalEngagement a).
Proof.
  unfold compareFn.
  destruct (netScore a =? netScore b) eqn:E; simpl.
  - apply Z.eqb_eq in E. lia.
  - apply Z.eqb_neq in E. lia.
Qed.


End Popularity.

(** ** The manifesto list: sorting and shuffling *)

Section Manifesto.
Import JsArray ManifestoList.

(** The votes sort of the manifesto list looks at the net score alone. *)
Lemma sortedData_net_score filteredData voteCountsMap0 :
  Permutation (sortedData filteredData voteCountsMap0) filteredData /\
  StronglySorted (fun x y => score voteCountsMap0 y <= score voteCountsMap0 x)
                 (sortedData filteredData voteCountsMap0).
Proof.
  unfold sortedData. destruct filteredData as [|x l]; [split; constructor|].
  split; [apply sort_Permutation|].
  eapply StronglySorted_weaken;
    [|apply (sort_StronglySorted (compareFn voteCountsMap0))].
  - intros a b H. unfold compareFn in H. lia.
  - intros a b. unfold compareFn. lia.
  - intros a b c. unfold compareFn. lia.
Qed.

(** It has no second key: the items of one net score keep the order of
    the input, whatever their numbers of votes. *)
Lemma sortedData_ties filteredData voteCountsMap0 z :
  List.filter (fun y => score voteCountsMap0 y =? score voteCountsMap0 z)
              (sortedData filteredData voteCountsMap0)
  = List.filter (fun y => score voteCountsMap0 y =? score voteCountsMap0 z)
                filteredData.
Proof.
  assert (E : forall y,
             (compareFn voteCountsMap0 z y <=? 0) && (compareFn voteCountsMap0 y z <=? 0)
             = (score voteCountsMap0 y =? score voteCountsMap0 z)).
  { intros y. unfold compareFn.
    destruct (score voteCountsMap0 y =? score voteCountsMap0 z) eqn:E;
      [apply Z.eqb_eq in E | apply Z.eqb_neq in E].
    - apply andb_true_iff. split; apply Z.leb_le; lia.
    - apply andb_false_iff.
      destruct (Z_lt_le_dec (score voteCountsMap0 y) (score voteCountsMap0 z));
        [right | left]; apply Z.leb_gt; lia. }
  unfold sortedData. destruct filteredData as [|x l]; [reflexivity|].
  rewrite <- !(List.filter_ext _ _ E).
  apply (sort_stable (compareFn voteCountsMap0)).
  intros a b c. unfold compareFn. lia.
Qed.

Context {A : Type}.

Lemma swap_Permutation (a : list A) (m i : nat) : Permutation (swap a m i) a.
Proof.
  unfold swap.
  destruct (a !! m) as [am|] eqn:Hm; [|reflexivity].
  destruct (a !! i) as [ai|] eqn:Hi; [|reflexivity].
  now apply Permutation_insert_swap.
Qed.

(** The index that the loop draws lies in the part of the array that is
    still to be shuffled, so both indices of the exchange are indices of
    the array. *)
Lemma index_bound (scaled : Seed) (m : nat) : (index scaled (S m) <= m)%nat.
Proof.
  unfold index.
  pose proof (N.mod_upper_bound scaled (N.of_nat (S m)) ltac:(lia)). lia.
Qed.

Lemma swap_in_range (a : list A) (m i : nat) :
  (i <= m < length a)%nat ->
  exists am ai, a !! m = Some am /\ a !! i = Some ai /\
                swap a m i = <[i := am]> (<[m := ai]> a).
Proof.
  intros H.
  destruct (lookup_lt_is_Some_2 a m ltac:(lia)) as [am Hm].
  destruct (lookup_lt_is_Some_2 a i ltac:(lia)) as [ai Hi].
  exists am, ai. unfold swap. now rewrite Hm, Hi.
Qed.

(** One turn of the loop, started within the array: the two elements are
    exchanged, and the array keeps its length for the next turn. *)
Lemma shuffleLoop_step (scaled : Seed) (m : nat) (shuffled : list A) :
  (m < length shuffled)%nat ->
  exists am ai,
    shuffled !! m = Some am /\ shuffled !! index scaled (S m) = Some ai /\
    shuffleLoop scaled (S m) shuffled
    = shuffleLoop scaled m (<[index scaled (S m) := am]> (<[m := ai]> shuffled)) /\
    length (<[index scaled (S m) := am]> (<[m := ai]> shuffled)) = length shuffled.
Proof.
  intros Hm. pose proof (index_bound scaled m) as Hi.
  destruct (swap_in_range shuffled m (index scaled (S m)) ltac:(lia))
    as (am & ai & H1 & H2 & E).
  exists am, ai. simpl shuffleLoop. rewrite E, !length_insert. auto.
Qed.

Lemma shuffleLoop_Permutation (scaled : Seed) (m : nat) (shuffled : list A) :
  Permutation (shuffleLoop scaled m shuffled) shuffled.
Proof.
  revert shuffled; induction m as [|m IH]; intros shuffled; simpl; [reflexivity|].
  rewrite IH. apply swap_Permutation.
Qed.

(** C9. Whatever the seed, the shuffle returns a permutation of the list
    it is given: the same elements with the same multiplicities, in a list
    of the same length; and the seed and the list determine the result. *)
Theorem shuffledData_Permutation (randomSeed : option Seed) (sortedData0 : list A) :
  Permutation (shuffledData randomSeed sortedData0) sortedData0 /\
  length (shuffledData randomSeed sortedData0) = length sortedData0 /\
  (forall other : list A,
      other = sortedData0 ->
      shuffledData randomSeed other = shuffledData randomSeed sortedData0).
Proof.
  assert (H : Permutation (shuffledData randomSeed sortedData0) sortedData0).
  { unfold shuffledData.
    destruct randomSeed as [scaled|]; [|reflexivity].
    destruct sortedData0 as [|x l]; [reflexivity|].
    apply shuffleLoop_Permutation. }
  split; [exact H|]. split; [now apply Permutation_length|].
  now intros other ->.
Qed.

End Manifesto.

(** ** The two sorts by votes *)

Section PopularityOrder.
Import SuggestionList.



End PopularityOrder.


Lemma shuffledData_Permutation_witness :
  ManifestoList.shuffledData (Some 123456%N) ["a"; "b"; "c"; "d"]
  = ["b"; "c"; "d"; "a"] /\
  ManifestoList.shuffledData (Some 123456%N) ("a" :: ["b"; "c"; "d"])
  = ManifestoList.shuffledData (Some 123456%N) ["a"; "b"; "c"; "d"].
Proof.
  split; [reflexivity|].
  apply (proj2 (proj2 (shuffledData_Permutation (Some 123456%N) ["a"; "b"; "c"; "d"]))).
  reflexivity.
Defined.

(** ** The optimistic vote *)

Section Voting.
Import SuggestionList.

Lemma currentVoteOf_setVote st id0 v c : currentVoteOf (setVote st id0 v c) id0 = v.
Proof. unfold currentVoteOf, setVote. simpl. now rewrite lookup_insert_eq. Qed.

Lemma currentCountsOf_setVote st id0 v c : currentCountsOf (setVote st id0 v c) id0 = c.
Proof. unfold currentCountsOf, setVote. simpl. now rewrite lookup_insert_eq. Qed.

(** The vote and the counts of the other suggestions are left as they
    were. *)
Lemma handleVoteOptimistic_other signedIn st id0 type other :
  other <> id0 ->
  currentVoteOf (handleVoteOptimistic signedIn st id0 type) other = currentVoteOf st other /\
  currentCountsOf (handleVoteOptimistic signedIn st id0 type) other = currentCountsOf st other.
Proof.
  intros Hne. unfold handleVoteOptimistic.
  destruct signedIn; simpl; [|split; reflexivity].
  destruct (optimistic _ _ _) as [newVote counts].
  unfold currentVoteOf, currentCountsOf, setVote. simpl.
  rewrite !lookup_insert_ne by congruence. split; reflexivity.
Qed.

(** Clicking again on the vote that is set, with no vote counted: the
    vote is cleared and the count stays at 0, it does not go down by
    one. *)
Lemma optimistic_unvote_at_zero :
  optimistic (Some like) (mkCounts 0 0) like = (None, mkCounts 0 0) /\
  likes (snd (optimistic (Some like) (mkCounts 0 0) like))
  <> likes (mkCounts 0 0) - 1.
Proof. split; [reflexivity | discriminate]. Qed.

(** C2. The optimistic update of a signed-in user, from counts that are
    not negative. Clicking the type of the current vote clears the vote
    and takes one from the count of that type, which stops at 0; clicking
    the other type sets the vote to it, takes one from the count of the old
    type, which stops at 0, and adds one to the count of the new type;
    with no current vote the vote is set and one is added to the count of
    the clicked type, the other count being unchanged. A count of 1 or
    more that is decremented goes down by exactly one. *)
Theorem handleVoteOptimistic_toggle (st : State) (id0 : string) (type : VoteType) :
  0 <= likes (currentCountsOf st id0) ->
  0 <= dislikes (currentCountsOf st id0) ->
  let counts := currentCountsOf st id0 in
  let st' := handleVoteOptimistic true st id0 type in
  let counts' := currentCountsOf st' id0 in
  match currentVoteOf st id0 with
  | Some v =>
      if VoteType_eqb v type then
        currentVoteOf st' id0 = None /\
        countOf type counts' = Z.max 0 (countOf type counts - 1) /\
        (1 <= countOf type counts -> countOf type counts' = countOf type counts - 1) /\
        countOf (opposite type) counts' = countOf (opposite type) counts
      else
        currentVoteOf st' id0 = Some type /\
        countOf v counts' = Z.max 0 (countOf v counts - 1) /\
        (1 <= countOf v counts -> countOf v counts' = countOf v counts - 1) /\
        countOf type counts' = countOf type counts + 1
  | None =>
      currentVoteOf st' id0 = Some type /\
      countOf type counts' = countOf type counts + 1 /\
      countOf (opposite type) counts' = countOf (opposite type) counts
  end.
Proof.
  intros Hl Hd counts st' counts'.
  unfold counts', st', handleVoteOptimistic. simpl negb. cbv iota.
  destruct (optimistic (currentVoteOf st id0) (currentCountsOf st id0) type)
    as [newVote c] eqn:E.
  rewrite currentVoteOf_setVote, currentCountsOf_setVote.
  fold counts in E, Hl, Hd. revert E. unfold optimistic.
  destruct (currentVoteOf st id0) as [[]|], type; simpl;
    intros [= <- <-]; simpl; repeat split; lia.
Qed.

End Voting.

Lemma handleVoteOptimistic_toggle_witness :
  let st := SuggestionList.mkState
              (<["s-1" := Some SuggestionList.like]> ∅)
              (<["s-1" := SuggestionList.mkCounts 5 1]> ∅) in
  let st' := SuggestionList.handleVoteOptimistic true st "s-1" SuggestionList.dislike in
  SuggestionList.currentVoteOf st' "s-1" = Some SuggestionList.dislike /\
  SuggestionList.currentCountsOf st' "s-1" = SuggestionList.mkCounts 4 2 /\
  SuggestionList.likes (SuggestionList.currentCountsOf st' "s-1") = Z.max 0 (5 - 1).
Proof.
  intros st st'.
  pose proof (handleVoteOptimistic_toggle st "s-1" SuggestionList.dislike
                ltac:(vm_compute; discriminate) ltac:(vm_compute; discriminate)) as H.
  split; [exact (proj1 H)|]. split; [reflexivity|].
  exact (proj1 (proj2 H)).
Defined.

(** ** The admin gate of the middleware *)

Section AdminGate.
Import Middleware.

(** With no database configured the middleware lets a request to an
    admin path through, signed in or not. *)
Lemma middleware_unconfigured_forwards :
  Js.startsWith "/api/admin" "/api/admin/users" = true /\
  middleware (mkEnv None None) (mkAuth None false) (fun _ => PGRST116)
             "/api/admin/users" = Next.
Proof. split; reflexivity. Qed.

Lemma String_eqb_admin role :
  String.eqb role "admin" = true <-> Some role = Some "admin".
Proof.
  rewrite String.eqb_eq. split; [now intros -> | now intros [= ->]].
Qed.

(** C5. When the address and the key of the database are configured, a
    request whose path begins with /api/admin is answered 401 when there is
    no authenticated user, 403 when the role of the profile of the user is
    not "admin", and is forwarded exactly when the user is authenticated
    and that role is "admin". *)
Theorem middleware_admin_gate
    (env : Env) (getUser : AuthResult)
    (profiles : string -> Single (option string)) (pathname : string) :
  unset (NEXT_PUBLIC_SUPABASE_URL env) = false ->
  unset (NEXT_PUBLIC_SUPABASE_ANON_KEY env) = false ->
  Js.startsWith "/api/admin" pathname = true ->
  (authError getUser = true \/ user getUser = None ->
   middleware env getUser profiles pathname = Json 401 "Unauthorized") /\
  (forall uid,
      authError getUser = false -> user getUser = Some uid ->
      roleOf (profiles uid) <> Some "admin" ->
      middleware env getUser profiles pathname = Json 403 "Forbidden") /\
  (middleware env getUser profiles pathname = Next <->
   authError getUser = false /\
   exists uid, user getUser = Some uid /\ roleOf (profiles uid) = Some "admin").
Proof.
  intros Hurl Hkey Hpath. unfold middleware.
  rewrite Hurl, Hkey, Hpath. simpl orb. cbv iota.
  destruct getUser as [[uid|] [|]]; simpl; (split; [|split]).
  - reflexivity.
  - intros ? [=].
  - split; [discriminate | intros [[=] _]].
  - intros [[=]|[=]].
  - intros ? _ [= <-] Hrole.
    destruct (roleOf (profiles uid)) as [role|]; [|reflexivity].
    destruct (String.eqb role "admin") eqn:E; [|reflexivity].
    apply String_eqb_admin in E. contradiction.
  - destruct (roleOf (profiles uid)) as [role|] eqn:R.
    + destruct (String.eqb role "admin") eqn:E.
      * apply String_eqb_admin in E. split; [|reflexivity].
        intros _. split; [reflexivity|]. exists uid. now rewrite R.
      * split; [discriminate|]. intros [_ (u & [= <-] & Hu)].
        rewrite R in Hu. apply String_eqb_admin in Hu. congruence.
    + split; [discriminate|]. intros [_ (u & [= <-] & Hu)]. congruence.
  - reflexivity.
  - intros ? [=].
  - split; [discriminate | intros [[=] _]].
  - reflexivity.
  - intros ? _ [=].
  - split; [discriminate | intros [_ (u & [=] & _)]].
Qed.

End AdminGate.

Lemma middleware_admin_gate_witness :
  let env := Middleware.mkEnv (Some "https://db.example") (Some "anon-key") in
  let profiles := fun uid : string =>
    if String.eqb uid "u-1" then Data (Some "admin") else Data (Some "user") in
  Middleware.middleware env (mkAuth None false) profiles "/api/admin/users"
  = Middleware.Json 401 "Unauthorized" /\
  Middleware.middleware env (mkAuth (Some "u-2") false) profiles "/api/admin/users"
  = Middleware.Json 403 "Forbidden" /\
  Middleware.middleware env (mkAuth (Some "u-1") false) profiles "/api/admin/users"
  = Middleware.Next.
Proof.
  intros env profiles. split; [|split].
  - apply (proj1 (middleware_admin_gate env (mkAuth None false) profiles
                    "/api/admin/users" eq_refl eq_refl eq_refl)).
    right. reflexivity.
  - apply (proj1 (proj2 (middleware_admin_gate env (mkAuth (Some "u-2") false) profiles
                           "/api/admin/users" eq_refl eq_refl eq_refl)) "u-2");
      [reflexivity | reflexivity | discriminate].
  - apply (proj2 (proj2 (middleware_admin_gate env (mkAuth (Some "u-1") false) profiles
                           "/api/admin/users" eq_refl eq_refl eq_refl))).
    split; [reflexivity|]. exists "u-1". split; reflexivity.
Defined.

(** ** Pagination of the testimonials *)

Section Pagination.
Import TestimonialsRoute.

(** [?limit=0.5]: [Number("0.5")] is the double 0.5, which is finite and
    positive, and the limit of the query is 0.5, below 1. *)
Lemma limitOf_half :
  limitOf (Fin (1 # 2)) = Fin (1 # 2) /\ ~ (1 <= 1 # 2)%Q.
Proof. split; [reflexivity | intros H; now apply Qle_bool_iff in H]. Qed.

Lemma positive_integer_ge_1 (q : Q) (z : Z) :
  (q == inject_Z z)%Q -> (0 < q)%Q -> (1 <= q)%Q.
Proof.
  unfold Qeq, Qlt, Qle, inject_Z. destruct q as [n d]. simpl.
  intros H1 H2. assert (0 < z) by nia. nia.
Qed.

Variable StringToNumber : string -> Num.

(** C10. The limit of the query is 50 when the parameter is absent, when
    its number is not finite (not a number, or an infinity) and when it is
    not positive; otherwise it is the smaller of that number and 200. It is
    always greater than 0 and at most 200, and it is at least 1 when the
    number is an integer. The offset is 0 when the parameter is absent,
    when its number is not finite and when it is negative; otherwise it is
    that number. *)
Theorem pagination_clamped (limit offset : option string) :
  let limitParam := Number StringToNumber limit in
  let offsetParam := Number StringToNumber offset in
  let limit' := fst (pagination StringToNumber limit offset) in
  let offset' := snd (pagination StringToNumber limit offset) in
  (limit = None -> limit' = Fin 50) /\
  (isFinite limitParam = false -> limit' = Fin 50) /\
  (forall q, limitParam = Fin q -> (q <= 0)%Q -> limit' = Fin 50) /\
  (forall q, limitParam = Fin q -> (0 < q)%Q -> (q <= 200)%Q -> limit' = Fin q) /\
  (forall q, limitParam = Fin q -> (200 < q)%Q -> limit' = Fin 200) /\
  (exists l, limit' = Fin l /\ (0 < l)%Q /\ (l <= 200)%Q /\
             forall q z, limitParam = Fin q -> (q == inject_Z z)%Q -> (1 <= l)%Q) /\
  (offset = None -> offset' = Fin 0) /\
  (isFinite offsetParam = false -> offset' = Fin 0) /\
  (forall q, offsetParam = Fin q -> (q < 0)%Q -> offset' = Fin 0) /\
  (forall q, offsetParam = Fin q -> (0 <= q)%Q -> offset' = Fin q).
Proof.
  intros limitParam offsetParam limit' offset'.
  unfold limit', offset', pagination. simpl fst. simpl snd.
  fold limitParam offsetParam.
  assert (Hpos : forall q, gt (Fin q) (Fin 0) = true <-> (0 < q)%Q).
  { intros q. simpl. rewrite negb_true_iff, <- not_true_iff_false, Qle_bool_iff.
    split; [apply Qnot_le_lt | apply Qlt_not_le]. }
  assert (Hnonneg : forall q, ge (Fin q) (Fin 0) = true <-> (0 <= q)%Q).
  { intros q. simpl. apply Qle_bool_iff. }
  assert (Hmin : forall q, (q <= 200)%Q -> min (Fin q) (Fin 200) = Fin q).
  { intros q H. simpl. apply Qle_bool_iff in H. now rewrite H. }
  assert (Hmax : forall q, (200 < q)%Q -> min (Fin q) (Fin 200) = Fin 200).
  { intros q H. simpl. destruct (Qle_bool q 200) eqn:E; [|reflexivity].
    apply Qle_bool_iff in E. now apply Qlt_not_le in H. }
  assert (Hlim : forall q, (q <= 0)%Q -> limitOf (Fin q) = Fin 50).
  { intros q H. unfold limitOf. simpl isFinite.
    destruct (gt (Fin q) (Fin 0)) eqn:E; [|reflexivity].
    apply Hpos in E. now apply Qlt_not_le in E. }
  assert (Hlim' : forall q, (0 < q)%Q -> limitOf (Fin q) = min (Fin q) (Fin 200)).
  { intros q H. unfold limitOf. simpl isFinite.
    apply Hpos in H. now rewrite H. }
  repeat apply conj.
  - intros ->. reflexivity.
  - destruct limitParam; [reflexivity | reflexivity | discriminate].
  - intros q -> H. now apply Hlim.
  - intros q -> H1 H2. rewrite Hlim' by exact H1. now apply Hmin.
  - intros q -> H. rewrite Hlim', Hmax; [reflexivity | exact H |].
    eapply Qlt_trans; [|exact H]. reflexivity.
  - destruct limitParam as [| |q].
    + exists 50%Q. split; [reflexivity|]. split; [reflexivity|].
      split; [discriminate|]. intros ? ? [=].
    + exists 50%Q. split; [reflexivity|]. split; [reflexivity|].
      split; [discriminate|]. intros ? ? [=].
    + destruct (Qlt_le_dec 0 q) as [H|H].
      * rewrite Hlim' by exact H.
        destruct (Qlt_le_dec 200 q) as [H'|H'].
        -- rewrite Hmax by exact H'. exists 200%Q.
           split; [reflexivity|]. split; [reflexivity|].
           split; [discriminate|]. intros; discriminate.
        -- rewrite Hmin by exact H'. exists q.
           split; [reflexivity|]. split; [exact H|]. split; [exact H'|].
           intros q' z [= <-] Hz. now apply positive_integer_ge_1 with z.
      * rewrite Hlim by exact H. exists 50%Q.
        split; [reflexivity|]. split; [reflexivity|].
        split; [discriminate|]. intros; discriminate.
  - intros ->. reflexivity.
  - destruct offsetParam; [reflexivity | reflexivity | discriminate].
  - intros q -> H. unfold offsetOf. simpl isFinite.
    destruct (ge (Fin q) (Fin 0)) eqn:E; [|reflexivity].
    apply Hnonneg in E. now apply Qlt_not_le in H.
  - intros q -> H. unfold offsetOf. simpl isFinite.
    apply Hnonneg in H. now rewrite H.
Qed.

End Pagination.

Lemma pagination_clamped_witness :
  let StringToNumber := fun s : string =>
    if String.eqb s "500" then TestimonialsRoute.Fin 500
    else if String.eqb s "20" then TestimonialsRoute.Fin 20
    else TestimonialsRoute.NaN in
  fst (TestimonialsRoute.pagination StringToNumber (Some "500") (Some "20"))
  = TestimonialsRoute.Fin 200 /\
  snd (TestimonialsRoute.pagination StringToNumber (Some "500") (Some "20"))
  = TestimonialsRoute.Fin 20 /\
  fst (TestimonialsRoute.pagination StringToNumber (Some "many") None)
  = TestimonialsRoute.Fin 50.
Proof.
  intros StringToNumber.
  pose proof (pagination_clamped StringToNumber (Some "500") (Some "20")) as H.
  pose proof (pagination_clamped StringToNumber (Some "many") None) as H'.
  cbv zeta in H, H'.
  destruct H as (_ & _ & _ & _ & Hbig & _ & _ & _ & _ & Hoff).
  destruct H' as (_ & Hnan & _).
  split; [|split].
  - apply (Hbig 500%Q); [reflexivity | reflexivity].
  - apply (Hoff 20%Q); [reflexivity | discriminate].
  - apply Hnan. reflexivity.
Defined.

(** ** The suggestions route: the public feed *)

Section Feed.
Import SuggestionsRoute.

Lemma queryApproved_rows table queryId :
  exists rows,
    queryApproved table queryId = map selectItem rows /\
    Forall (fun r => In r table /\ Db.agenda_id r = queryId /\
                     Db.status r = "approved") rows.
Proof.
  exists (JsArray.sort newestFirst (List.filter (approvedOf queryId) table)).
  split; [reflexivity|].
  eapply Permutation_Forall; [symmetry; apply sort_Permutation|].
  apply List.Forall_forall. intros r [Hin Hok]%filter_In.
  unfold approvedOf in Hok. apply andb_true_iff in Hok as [Ha Hs].
  apply String.eqb_eq in Ha, Hs. auto.
Qed.

(** C8. A response of [GET] with status 200 is a feed, and every
    suggestion of the feed is the selection of a row of the table whose
    status is "approved" (and whose agenda is the one asked for): no row
    whose status is "pending" is in it. *)
Theorem GET_feed_approved (be : Backend) (w : World) (agendaId : option string)
    (payload : Payload) :
  GET be w agendaId = Json 200 payload ->
  exists rows queryId,
    payload = Feed (map selectItem rows) queryId /\
    Forall (fun r => In r (suggestions w) /\
                     Db.agenda_id r = queryId /\
                     Db.status r = "approved" /\
                     Db.status r <> "pending") rows.
Proof.
  unfold GET, invalidAgenda.
  destruct agendaId as [[|c s]|]; try discriminate.
  destruct (negb _ || falsy _); [discriminate|].
  destruct (selectError be); [discriminate|].
  intros [= <-].
  destruct (queryApproved_rows (suggestions w)
              (default EmptyString
                 (UuidHelpers.agendaUUID
                    (UuidHelpers.validateAndNormalizeAgendaId
                       (Fulfilled (findAgenda be)) (String c s))))) as (rows & E & H).
  eexists rows, _. split; [now rewrite E|].
  eapply List.Forall_impl; [|exact H].
  intros r (Hin & Ha & Hs). repeat split; try assumption.
  rewrite Hs. discriminate.
Qed.

End Feed.

Lemma GET_feed_approved_witness :
  let uuid := "123e4567-e89b-42d3-a456-426614174000" in
  let be := SuggestionsRoute.mkBackend (mkAuth None false)
              (fun _ => PGRST116) (fun _ => PGRST116) PGRST116
              false false "new-id" 0 in
  let approved := Db.mkSuggestion "s-1" uuid "u-1" "Publish the budget" "Asha" "approved" 10 in
  let pending := Db.mkSuggestion "s-2" uuid "u-2" "Audit the tenders" "Bina" "pending" 20 in
  let w := SuggestionsRoute.mkWorld [] [pending; approved] [] in
  SuggestionsRoute.GET be w (Some uuid)
  = SuggestionsRoute.Json 200
      (SuggestionsRoute.Feed [SuggestionsRoute.selectItem approved] uuid) /\
  exists rows queryId,
    SuggestionsRoute.Feed [SuggestionsRoute.selectItem approved] uuid
    = SuggestionsRoute.Feed (map SuggestionsRoute.selectItem rows) queryId /\
    Forall (fun r => In r [pending; approved] /\
                     Db.agenda_id r = queryId /\
                     Db.status r = "approved" /\
                     Db.status r <> "pending") rows.
Proof.
  intros uuid be approved pending w.
  split; [vm_compute; reflexivity|].
  apply (GET_feed_approved be w (Some uuid)).
  vm_compute. reflexivity.
Defined.

(** ** The suggestions route: creation *)

Section Creation.
Import SuggestionsRoute.

Lemma trim_empty : Js.trim EmptyString = EmptyString.
Proof. reflexivity. Qed.




End Creation.


(** ** The suggestions route: the rate limit *)

Section Limit.
Import SuggestionsRoute.

Lemma filter_recent name0 ip0 now0 window log :
  List.filter (RateLimit.recent name0 ip0 now0 window) log
  = List.filter (fun h => now0 - window <? RateLimit.time h)
                (RateLimit.hitsOf name0 ip0 log).
Proof.
  unfold RateLimit.hitsOf, RateLimit.recent.
  induction log as [|h log IH]; simpl; [reflexivity|].
  destruct (String.eqb (RateLimit.name h) name0 && String.eqb (RateLimit.ip h) ip0);
    simpl; rewrite IH; reflexivity.
Qed.

Lemma filter_true {A : Type} (f : A -> bool) (l : list A) :
  Forall (fun x => f x = true) l -> List.filter f l = l.
Proof.
  induction 1 as [|x l Hx _ IH]; simpl; [reflexivity|]. now rewrite Hx, IH.
Qed.

Lemma hitsOf_absent name0 ip0 log :
  Forall (fun h => RateLimit.ip h <> ip0) log -> RateLimit.hitsOf name0 ip0 log = [].
Proof.
  induction 1 as [|h log Hh _ IH]; simpl; [reflexivity|].
  apply String.eqb_neq in Hh. now rewrite Hh, andb_false_r.
Qed.

(** The limiter lets a request through while fewer than [limit] requests
    of the address are recorded. *)
Lemma checkRateLimit_under log name0 ip0 now0 limit window :
  Z.of_nat (length (RateLimit.hitsOf name0 ip0 log)) < limit ->
  RateLimit.checkRateLimit log name0 ip0 now0 limit window
  = (true, RateLimit.mkHit name0 ip0 now0 :: log).
Proof.
  intros H. unfold RateLimit.checkRateLimit. rewrite filter_recent.
  pose proof (List.filter_length_le (fun h => now0 - window <? RateLimit.time h)
                (RateLimit.hitsOf name0 ip0 log)) as Hle.
  destruct (_ <? limit) eqn:E; [reflexivity|].
  apply Z.ltb_ge in E. lia.
Qed.

(** It rejects a request when [limit] requests of the address, or more,
    were let through within the window. *)
Lemma checkRateLimit_over log name0 ip0 now0 limit window :
  Forall (fun h => now0 - window < RateLimit.time h) (RateLimit.hitsOf name0 ip0 log) ->
  limit <= Z.of_nat (length (RateLimit.hitsOf name0 ip0 log)) ->
  RateLimit.checkRateLimit log name0 ip0 now0 limit window = (false, log).
Proof.
  intros Hall H. unfold RateLimit.checkRateLimit.
  rewrite filter_recent, filter_true.
  - destruct (_ <? limit) eqn:E; [|reflexivity]. apply Z.ltb_lt in E. lia.
  - eapply List.Forall_impl; [|exact Hall]. intros h. apply Z.ltb_lt.
Qed.

(** What one request does to the limiter, when its origin is allowed. *)
Lemma POST_limiter be w req :
  originAllowed req = true ->
  let '(ok, log) :=
    RateLimit.checkRateLimit (rateLimit w) "suggestion-create" (ip req) (arrival req)
                             5 (10 * 60 * 1000) in
  rateLimit (snd (POST be w req)) = log /\
  (ok = false -> POST be w req = (RateLimited, mkWorld log (suggestions w) (emails w))) /\
  (ok = true -> fst (POST be w req) <> RateLimited).
Proof.
  intros Ho. unfold POST. rewrite Ho. simpl negb. cbv iota.
  destruct (RateLimit.checkRateLimit _ _ _ _ _ _) as [ok log].
  destruct ok; simpl negb; cbv iota; [|repeat split; discriminate].
  split; [|split; [discriminate|intros _]].
  - destruct (authError _); [reflexivity|].
    destruct (user _); [|reflexivity].
    destruct (body req) as [b|]; [|reflexivity].
    destruct (falsy _); [reflexivity|].
    destruct (check _); try reflexivity.
    destruct (check _); try reflexivity.
    destruct (negb _ || falsy _); [reflexivity|].
    destruct (insertError _); reflexivity.
  - destruct (authError _); [discriminate|].
    destruct (user _); [|discriminate].
    destruct (body req) as [b|]; [|discriminate].
    destruct (falsy _); [discriminate|].
    destruct (check _); try discriminate.
    destruct (check _); try discriminate.
    unfold invalidAgenda.
    destruct (negb _ || falsy _); [discriminate|].
    destruct (insertError _); discriminate.
Qed.

Lemma hitsOf_cons ip0 now0 log :
  RateLimit.hitsOf "suggestion-create" ip0
    (RateLimit.mkHit "suggestion-create" ip0 now0 :: log)
  = RateLimit.mkHit "suggestion-create" ip0 now0
    :: RateLimit.hitsOf "suggestion-create" ip0 log.
Proof. unfold RateLimit.hitsOf. simpl. now rewrite String.eqb_refl. Qed.

(** While the address stays under the limit, its requests pass the
    limiter and each of them is recorded. *)
Lemma serve_under_limit (ip0 : string) (reqs : list (Backend * Request)) :
  forall w : World,
    Forall (fun p => originAllowed (snd p) = true /\ ip (snd p) = ip0) reqs ->
    (length (RateLimit.hitsOf "suggestion-create" ip0 (rateLimit w)) + length reqs <= 5)%nat ->
    Forall (fun r => r <> RateLimited) (fst (serve w reqs)) /\
    RateLimit.hitsOf "suggestion-create" ip0 (rateLimit (snd (serve w reqs)))
    = (rev (map (fun p => RateLimit.mkHit "suggestion-create" ip0 (arrival (snd p))) reqs)
       ++ RateLimit.hitsOf "suggestion-create" ip0 (rateLimit w))%list.
Proof.
  induction reqs as [|[be req] reqs IH]; intros w Hall Hlen; simpl.
  - split; [constructor | reflexivity].
  - apply List.Forall_cons_iff in Hall as [[Ho Hip] Hall']. simpl in Ho, Hip, Hlen.
    pose proof (POST_limiter be w req Ho) as HP.
    rewrite checkRateLimit_under in HP by (rewrite Hip; lia).
    destruct HP as (Hlog & _ & Hok).
    destruct (POST be w req) as [r w'] eqn:EP. simpl in Hlog, Hok.
    specialize (IH w' Hall').
    rewrite Hlog, Hip, hitsOf_cons in IH. simpl length in IH.
    specialize (IH ltac:(lia)).
    destruct (serve w' reqs) as [rs w''] eqn:ES. simpl in IH |- *.
    destruct IH as [IH1 IH2]. split.
    + constructor; [now apply Hok | exact IH1].
    + rewrite IH2, <- Hip, <- app_assoc. reflexivity.
Qed.

(** Six requests of one address within five seconds, the first of them
    from an origin that is not allowed: it is answered 403 and the limiter
    never sees it, so the sixth request to arrive is the fifth that the
    limiter counts, and it is let through and its row is inserted. *)
Lemma POST_sixth_after_foreign_origin :
  let be := mkBackend (mkAuth (Some "u-1") false) (fun _ => PGRST116) (fun _ => PGRST116)
                      PGRST116 false false "new-id" 0 in
  let b := mkBody (Some "1") (VString "Publish the budget") (VString "Asha") in
  let request := fun (allowed : bool) (t : Z) =>
    (be, mkRequest allowed "203.0.113.7" t (Some b)) in
  let first5 := [request false 0; request true 1000; request true 2000;
                 request true 3000; request true 4000] in
  let w5 := snd (serve (mkWorld [] [] []) first5) in
  head (fst (serve (mkWorld [] [] []) first5)) = Some (Json 403 (Error "Forbidden")) /\
  fst (POST be w5 (snd (request true 5000))) <> RateLimited /\
  length (suggestions w5) = 4%nat /\
  length (suggestions (snd (POST be w5 (snd (request true 5000))))) = 5%nat.
Proof.
  split; [vm_compute; reflexivity|].
  split; [vm_compute; discriminate|].
  split; vm_compute; reflexivity.
Qed.

(** C6. Six requests of one address, all with an allowed origin, to a
    limiter that has seen nothing of the address: when the first five came
    less than ten minutes before the sixth, none of the five is rejected by
    the limiter, and the sixth is answered by the limiter whatever the
    session and the database are, with no row inserted and no email sent:
    the world is left as it was. *)
Theorem POST_sixth_rate_limited
    (w : World) (first5 : list (Backend * Request))
    (be6 : Backend) (req6 : Request) (ip0 : string) :
  length first5 = 5%nat ->
  Forall (fun h => RateLimit.ip h <> ip0) (rateLimit w) ->
  Forall (fun p => originAllowed (snd p) = true /\ ip (snd p) = ip0 /\
                   arrival req6 - 10 * 60 * 1000 < arrival (snd p)) first5 ->
  originAllowed req6 = true ->
  ip req6 = ip0 ->
  Forall (fun r => r <> RateLimited) (fst (serve w first5)) /\
  POST be6 (snd (serve w first5)) req6 = (RateLimited, snd (serve w first5)).
Proof.
  intros Hlen Hfresh Hall Ho Hip.
  pose proof (hitsOf_absent "suggestion-create" ip0 _ Hfresh) as Hnone.
  destruct (serve_under_limit ip0 first5 w) as [Hpass Hhits].
  { eapply List.Forall_impl; [|exact Hall]. intros p (H1 & H2 & _). now split. }
  { rewrite Hnone, Hlen. simpl. lia. }
  split; [exact Hpass|].
  rewrite Hnone, app_nil_r in Hhits.
  pose proof (POST_limiter be6 (snd (serve w first5)) req6 Ho) as HP.
  rewrite checkRateLimit_over in HP.
  - destruct HP as (_ & HP & _). rewrite (HP eq_refl).
    now destruct (snd (serve w first5)).
  - rewrite Hip, Hhits. apply Forall_rev, List.Forall_map.
    eapply List.Forall_impl; [|exact Hall]. intros p (_ & _ & H). exact H.
  - rewrite Hip, Hhits, length_rev, length_map, Hlen. simpl. lia.
Qed.

End Limit.

Lemma POST_sixth_rate_limited_witness :
  let be := SuggestionsRoute.mkBackend (mkAuth (Some "u-1") false)
              (fun _ => PGRST116) (fun _ => PGRST116) PGRST116
              false false "new-id" 0 in
  let b := SuggestionsRoute.mkBody (Some "1")
             (SuggestionsRoute.VString "Publish the budget")
             (SuggestionsRoute.VString "Asha") in
  let request := fun t : Z => (be, SuggestionsRoute.mkRequest true "203.0.113.7" t (Some b)) in
  let first5 := [request 0; request 1000; request 2000; request 3000; request 4000] in
  let w := SuggestionsRoute.mkWorld [] [] [] in
  Forall (fun r => r <> SuggestionsRoute.RateLimited)
         (fst (SuggestionsRoute.serve w first5)) /\
  SuggestionsRoute.POST be (snd (SuggestionsRoute.serve w first5)) (snd (request 5000))
  = (SuggestionsRoute.RateLimited, snd (SuggestionsRoute.serve w first5)) /\
  length (SuggestionsRoute.suggestions (snd (SuggestionsRoute.serve w first5))) = 5%nat.
Proof.
  intros be b request first5 w.
  destruct (POST_sixth_rate_limited w first5 be (snd (request 5000)) "203.0.113.7")
    as [H1 H2].
  - reflexivity.
  - constructor.
  - repeat constructor.
  - reflexivity.
  - reflexivity.
  - split; [exact H1|]. split; [exact H2 | vm_compute; reflexivity].
Defined.

(* ===================================================================== *)
(** * Further properties of the same code                                 *)
(* ===================================================================== *)

(** ** Id normalisation: the three formats *)

Section Formats.
Import Js UuidHelpers.

Lemma append_inj_length (a a' b b' : string) :
  String.length a = String.length a' ->
  a +:+ b = a' +:+ b' -> a = a' /\ b = b'.
Proof.
  revert a'; induction a as [|c a IH]; intros [|c' a'] Hlen H;
    simpl in *; try discriminate.
  - now split.
  - injection H as -> H. destruct (IH a' ltac:(congruence) H) as [-> ->].
    now split.
Qed.

(** Two runs of digits, each followed by a dash, that start equal
    strings are the same run. *)
Lemma digits_before_dash (p p' r r' : string) :
  all_in is_digit p = true -> all_in is_digit p' = true ->
  p +:+ String "-" r = p' +:+ String "-" r' -> p = p'.
Proof.
  revert p'; induction p as [|c p IH]; intros [|c' p'] Hp Hp' H; simpl in *.
  - reflexivity.
  - injection H as <- _. discriminate Hp'.
  - injection H as -> _. discriminate Hp.
  - injection H as -> H.
    apply andb_true_iff in Hp as [_ Hp]. apply andb_true_iff in Hp' as [_ Hp'].
    f_equal. now apply IH.
Qed.

Lemma isValidUUID_first uuid :
  isValidUUID uuid = true ->
  exists c rest, uuid = String c rest /\ is_hex c = true.
Proof.
  unfold isValidUUID, uuidRegex. destruct uuid as [|c rest]; [discriminate|].
  simpl. intros [H _]%andb_true_iff. eauto.
Qed.

Lemma isValidUUID_ninth uuid :
  isValidUUID uuid = true ->
  exists group rest, uuid = group +:+ String "-" rest /\ String.length group = 8%nat.
Proof.
  unfold isValidUUID, uuidRegex.
  destruct uuid as [|c1 [|c2 [|c3 [|c4 [|c5 [|c6 [|c7 [|c8 [|c9 rest]]]]]]]]];
    simpl; intros H; try (rewrite ?andb_false_r in H; discriminate H).
  do 8 (apply andb_true_iff in H as [_ H]).
  apply andb_true_iff in H as [H _]. unfold dash, is_char in H.
  destruct (Ascii.eqb_spec "-"%char c9) as [<-|]; [|discriminate H].
  exists (String c1 (String c2 (String c3 (String c4 (String c5 (String c6
            (String c7 (String c8 EmptyString)))))))), rest.
  split; reflexivity.
Qed.

Lemma all_in_digit_no_dash (group rest : string) :
  all_in is_digit (group +:+ String "-" rest) = false.
Proof.
  rewrite all_in_append. simpl. now rewrite andb_false_r.
Qed.

Lemma isValidUUID_not_isRawInteger id :
  isValidUUID id = true -> isRawInteger id = false.
Proof.
  intros (group & rest & -> & _)%isValidUUID_ninth.
  unfold isRawInteger, test_digits.
  destruct (group +:+ String "-" rest) eqn:E; [reflexivity|].
  rewrite <- E. apply all_in_digit_no_dash.
Qed.

Lemma prefix_first (c d : ascii) (p s : string) :
  String.prefix (String c p) (String d s) = true -> c = d.
Proof.
  cbn [String.prefix]. destruct (ascii_dec c d); [trivial | discriminate].
Qed.

Lemma isValidUUID_not_isManifestoFormat id :
  isValidUUID id = true -> isManifestoFormat id = false.
Proof.
  intros (c & rest & -> & Hc)%isValidUUID_first.
  unfold isManifestoFormat.
  destruct (String.prefix "manifesto-" (String c rest)) eqn:E; [|reflexivity].
  apply prefix_first in E. subst c. discriminate Hc.
Qed.

Lemma isRawInteger_not_isManifestoFormat id :
  isRawInteger id = true -> isManifestoFormat id = false.
Proof.
  unfold isRawInteger, test_digits, isManifestoFormat.
  destruct id as [|c rest]; [discriminate|].
  intros H. change (is_digit c && all_in is_digit rest = true) in H.
  apply andb_true_iff in H as [Hc _].
  destruct (String.prefix "manifesto-" (String c rest)) eqn:E; [|reflexivity].
  apply prefix_first in E. subst c. discriminate Hc.
Qed.

(** X1. No id has two of the three formats. A UUID is valid without a
    client; an integer or a manifesto id is valid exactly when
    [createClient()] is fulfilled; every other id is invalid. A valid
    answer has no error; an invalid one has no UUID, gives the id back as
    it came, and has the message of the [catch] branch when the id has a
    known format, the message that names the three formats when it has
    none. *)
Theorem validateAndNormalizeAgendaId_formats
    (createClient : Promise (string -> Single string)) (id : string) :
  isValidUUID id && isRawInteger id = false /\
  isValidUUID id && isManifestoFormat id = false /\
  isRawInteger id && isManifestoFormat id = false /\
  isValid (validateAndNormalizeAgendaId createClient id)
  = isValidUUID id
    || (isRawInteger id || isManifestoFormat id)
       && match createClient with Fulfilled _ => true | Rejected => false end /\
  (if isValid (validateAndNormalizeAgendaId createClient id) then
     error (validateAndNormalizeAgendaId createClient id) = None
   else
     agendaUUID (validateAndNormalizeAgendaId createClient id) = None /\
     normalizedId (validateAndNormalizeAgendaId createClient id) = id /\
     error (validateAndNormalizeAgendaId createClient id)
     = Some (if isRawInteger id || isManifestoFormat id
             then "Failed to validate agenda ID"
             else "Invalid ID format. Expected UUID, integer, or manifesto-{number} format.")).
Proof.
  pose proof (isValidUUID_not_isRawInteger id) as H1.
  pose proof (isValidUUID_not_isManifestoFormat id) as H2.
  pose proof (isRawInteger_not_isManifestoFormat id) as H3.
  unfold validateAndNormalizeAgendaId, getOrCreateAgendaUUID.
  destruct (isValidUUID id), (isRawInteger id), (isManifestoFormat id), createClient;
    simpl; repeat split; auto.
Qed.

(** With a client, a raw integer is validated as the manifesto id made of
    it. *)
Lemma validateAndNormalizeAgendaId_raw (find : string -> Single string) (n : string) :
  isRawInteger n = true ->
  validateAndNormalizeAgendaId (Fulfilled find) n
  = validateAndNormalizeAgendaId (Fulfilled find) ("manifesto-" +:+ n).
Proof.
  intros Hn. unfold validateAndNormalizeAgendaId at 1.
  destruct (isValidUUID n) eqn:Hu.
  { apply isValidUUID_not_isRawInteger in Hu. congruence. }
  rewrite Hn. unfold toManifestoFormat. rewrite Hn.
  unfold validateAndNormalizeAgendaId.
  destruct (isValidUUID ("manifesto-" +:+ n)) eqn:Hu'.
  { apply isValidUUID_not_isManifestoFormat in Hu'.
    rewrite isManifestoFormat_manifesto in Hu' by exact Hn. discriminate. }
  destruct (isRawInteger ("manifesto-" +:+ n)) eqn:Hr.
  { apply isRawInteger_not_isManifestoFormat in Hr.
    rewrite isManifestoFormat_manifesto in Hr by exact Hn. discriminate. }
  now rewrite isManifestoFormat_manifesto by exact Hn.
Qed.

(** Without a client, an integer or a manifesto id is answered by the
    [catch] branch, with the id as it came. *)
Lemma validateAndNormalizeAgendaId_rejected (id : string) :
  isRawInteger id || isManifestoFormat id = true ->
  validateAndNormalizeAgendaId Rejected id
  = mkValidation false id None (Some "Failed to validate agenda ID").
Proof.
  intros H. unfold validateAndNormalizeAgendaId, getOrCreateAgendaUUID.
  destruct (isValidUUID id) eqn:Hu.
  { rewrite (isValidUUID_not_isRawInteger id Hu),
      (isValidUUID_not_isManifestoFormat id Hu) in H. discriminate H. }
  destruct (isRawInteger id); [reflexivity|].
  destruct (isManifestoFormat id); [reflexivity | discriminate H].
Qed.

(** X2. A raw integer and the same number behind "manifesto-" are one id.
    When [createClient()] is fulfilled they are validated to the same
    answer: the same normalised id and the same UUID. When it is rejected
    both are answered by the [catch] branch, invalid, without a UUID and
    with the same message, each with the id as it came; so the validity,
    the UUID and the error agree in every case. *)
Theorem validateAndNormalizeAgendaId_alias
    (createClient : Promise (string -> Single string)) (n : string) :
  isRawInteger n = true ->
  let raw := validateAndNormalizeAgendaId createClient n in
  let prefixed := validateAndNormalizeAgendaId createClient ("manifesto-" +:+ n) in
  isValid raw = isValid prefixed /\
  agendaUUID raw = agendaUUID prefixed /\
  error raw = error prefixed /\
  match createClient with
  | Fulfilled _ => raw = prefixed /\ normalizedId raw = "manifesto-" +:+ n
  | Rejected =>
      isValid raw = false /\
      normalizedId raw = n /\ normalizedId prefixed = "manifesto-" +:+ n
  end.
Proof.
  intros Hn raw prefixed. unfold raw, prefixed. clear raw prefixed.
  destruct createClient as [|find].
  - rewrite !validateAndNormalizeAgendaId_rejected.
    + simpl. repeat split.
    + now rewrite isManifestoFormat_manifesto, orb_true_r.
    + now rewrite Hn.
  - rewrite (validateAndNormalizeAgendaId_raw find n Hn).
    repeat split. unfold validateAndNormalizeAgendaId.
    destruct (isValidUUID ("manifesto-" +:+ n)) eqn:Hu.
    { apply isValidUUID_not_isManifestoFormat in Hu.
      rewrite isManifestoFormat_manifesto in Hu by exact Hn. discriminate. }
    destruct (isRawInteger ("manifesto-" +:+ n)) eqn:Hr.
    { apply isRawInteger_not_isManifestoFormat in Hr.
      rewrite isManifestoFormat_manifesto in Hr by exact Hn. discriminate. }
    now rewrite isManifestoFormat_manifesto by exact Hn.
Qed.

(** X3. Normalising is idempotent: the normalised id of any id is
    validated to the very result that the id was, whether
    [createClient()] is fulfilled or rejected. *)
Theorem validateAndNormalizeAgendaId_idempotent
    (createClient : Promise (string -> Single string)) (id : string) :
  validateAndNormalizeAgendaId createClient
    (normalizedId (validateAndNormalizeAgendaId createClient id))
  = validateAndNormalizeAgendaId createClient id.
Proof.
  destruct createClient as [|find].
  - destruct (isRawInteger id || isManifestoFormat id) eqn:H.
    + rewrite (validateAndNormalizeAgendaId_rejected id H).
      cbn [normalizedId]. apply (validateAndNormalizeAgendaId_rejected id H).
    + apply orb_false_iff in H as [Hr Hm].
      unfold validateAndNormalizeAgendaId at 2. rewrite Hr, Hm.
      destruct (isValidUUID id); reflexivity.
  - destruct (isRawInteger id) eqn:Hr.
    + rewrite (validateAndNormalizeAgendaId_raw find id Hr).
      pose proof (isManifestoFormat_manifesto id Hr) as Hm.
      unfold validateAndNormalizeAgendaId at 2.
      destruct (isValidUUID ("manifesto-" +:+ id)) eqn:Hu.
      { apply isValidUUID_not_isManifestoFormat in Hu. congruence. }
      destruct (isRawInteger ("manifesto-" +:+ id)) eqn:Hr'.
      { apply isRawInteger_not_isManifestoFormat in Hr'. congruence. }
      rewrite Hm. reflexivity.
    + unfold validateAndNormalizeAgendaId at 2. rewrite Hr.
      destruct (isValidUUID id); [reflexivity|].
      destruct (isManifestoFormat id); reflexivity.
Qed.

(** X4. The prefix is added once and can be taken off again:
    [toManifestoFormat] is idempotent, and from the id that it makes of a
    raw integer, which has the manifesto format, removing "manifesto-"
    gives the integer back. *)
Theorem toManifestoFormat_round_trip (id : string) :
  toManifestoFormat (toManifestoFormat id) = toManifestoFormat id /\
  (isRawInteger id = true ->
   isManifestoFormat (toManifestoFormat id) = true /\
   replace "manifesto-" "" (toManifestoFormat id) = id).
Proof.
  destruct (isRawInteger id) eqn:Hr.
  - assert (E : toManifestoFormat id = "manifesto-" +:+ id)
      by (unfold toManifestoFormat; now rewrite Hr).
    pose proof (isManifestoFormat_manifesto id Hr) as Hm.
    rewrite E. split.
    + unfold toManifestoFormat.
      destruct (isRawInteger ("manifesto-" +:+ id)) eqn:Hr'; [|reflexivity].
      apply isRawInteger_not_isManifestoFormat in Hr'. congruence.
    + intros _. split; [exact Hm | apply replace_prefix].
  - assert (E : toManifestoFormat id = id)
      by (unfold toManifestoFormat; now rewrite Hr).
    rewrite !E. split; [reflexivity | discriminate].
Qed.

Lemma all_in_digit_padStart n :
  all_in is_digit n = true -> all_in is_digit (padStart 4 "0" n) = true.
Proof.
  intros H. unfold padStart. rewrite all_in_append, H.
  now rewrite all_in_repeat_char.
Qed.

Lemma generateDeterministicUUID_equal_inv (n n' : string) :
  test_digits n = true -> test_digits n' = true ->
  generateDeterministicUUID ("manifesto-" +:+ n)
  = generateDeterministicUUID ("manifesto-" +:+ n') ->
  padStart 4 "0" n = padStart 4 "0" n'.
Proof.
  intros Hn Hn'. rewrite !generateDeterministicUUID_shape, !replace_prefix.
  destruct (hexOf_spec ("manifesto-" +:+ n)) as [Hlen _].
  destruct (hexOf_spec ("manifesto-" +:+ n')) as [Hlen' _].
  intros H. apply append_inj_length in H as [_ H]; [|congruence].
  injection H as H.
  apply digits_before_dash in H; [exact H| |];
    now apply all_in_digit_padStart, test_digits_all.
Qed.

(** X5. Manifesto ids whose numbers, padded with zeros to four digits,
    are different strings never get the same generated UUID, whatever their
    hashes are: the padded number is the second group of the UUID. *)
Theorem generateDeterministicUUID_injective (n n' : string) :
  test_digits n = true -> test_digits n' = true ->
  padStart 4 "0" n <> padStart 4 "0" n' ->
  generateDeterministicUUID ("manifesto-" +:+ n)
  <> generateDeterministicUUID ("manifesto-" +:+ n').
Proof.
  intros Hn Hn' Hne H. apply Hne.
  now apply generateDeterministicUUID_equal_inv.
Qed.

(** X6. An id of a known format fails to resolve only when the lookup of
    the agenda reports an error other than "no rows": a UUID resolves to
    itself without a lookup, a row that is found gives its id, and when no
    row is found the generated UUID is used. An id that is valid and is not
    a UUID was looked up through a client: [createClient()] was
    fulfilled. *)
Theorem validateAndNormalizeAgendaId_resolves
    (createClient : Promise (string -> Single string)) (id : string) :
  isValid (validateAndNormalizeAgendaId createClient id) = true ->
  let number := replace "manifesto-" "" (toManifestoFormat id) in
  (isValidUUID id = false -> exists find, createClient = Fulfilled find) /\
  agendaUUID (validateAndNormalizeAgendaId createClient id)
  = if isValidUUID id then Some id
    else match createClient with
         | Fulfilled find =>
             match find number with
             | Data row => Some row
             | PGRST116 => Some (generateDeterministicUUID (toManifestoFormat id))
             | QueryError => None
             end
         | Rejected => None
         end.
Proof.
  intros Hv number. unfold number. clear number. revert Hv.
  unfold validateAndNormalizeAgendaId, getOrCreateAgendaUUID.
  destruct (isValidUUID id); [split; [discriminate | reflexivity]|].
  destruct (isRawInteger id) eqn:Hr.
  - destruct createClient as [|find]; [discriminate|].
    intros _. split; [eauto|]. simpl. destruct (find _); reflexivity.
  - destruct (isManifestoFormat id); [|discriminate].
    destruct createClient as [|find]; [discriminate|].
    intros _. split; [eauto|]. simpl. unfold toManifestoFormat. rewrite Hr.
    destruct (find _); reflexivity.
Qed.

End Formats.

Lemma validateAndNormalizeAgendaId_alias_witness :
  let find := fun n : string =>
    if String.eqb n "7" then Data "123e4567-e89b-42d3-a456-426614174000" else PGRST116 in
  (UuidHelpers.validateAndNormalizeAgendaId (Fulfilled find) "7"
   = UuidHelpers.validateAndNormalizeAgendaId (Fulfilled find) "manifesto-7" /\
   UuidHelpers.normalizedId (UuidHelpers.validateAndNormalizeAgendaId (Fulfilled find) "7")
   = "manifesto-7") /\
  UuidHelpers.error (UuidHelpers.validateAndNormalizeAgendaId Rejected "7")
  = UuidHelpers.error (UuidHelpers.validateAndNormalizeAgendaId Rejected "manifesto-7").
Proof.
  intros find. split.
  - exact (proj2 (proj2 (proj2
             (validateAndNormalizeAgendaId_alias (Fulfilled find) "7" eq_refl)))).
  - exact (proj1 (proj2 (proj2
             (validateAndNormalizeAgendaId_alias Rejected "7" eq_refl)))).
Defined.

Lemma toManifestoFormat_round_trip_witness :
  UuidHelpers.isManifestoFormat (UuidHelpers.toManifestoFormat "31") = true /\
  Js.replace "manifesto-" "" (UuidHelpers.toManifestoFormat "31") = "31".
Proof.
  apply (proj2 (toManifestoFormat_round_trip "31")). reflexivity.
Defined.

Lemma generateDeterministicUUID_injective_witness :
  UuidHelpers.generateDeterministicUUID "manifesto-7"
  <> UuidHelpers.generateDeterministicUUID "manifesto-70".
Proof.
  apply (generateDeterministicUUID_injective "7" "70");
    [reflexivity | reflexivity | discriminate].
Defined.

Lemma validateAndNormalizeAgendaId_resolves_witness :
  UuidHelpers.agendaUUID
    (UuidHelpers.validateAndNormalizeAgendaId (Fulfilled (fun _ => PGRST116)) "3")
  = Some (UuidHelpers.generateDeterministicUUID "manifesto-3") /\
  UuidHelpers.agendaUUID
    (UuidHelpers.validateAndNormalizeAgendaId (Fulfilled (fun _ => QueryError)) "manifesto-3")
  = None.
Proof.
  split.
  - apply (proj2 (validateAndNormalizeAgendaId_resolves
                    (Fulfilled (fun _ => PGRST116)) "3" eq_refl)).
  - apply (proj2 (validateAndNormalizeAgendaId_resolves
                    (Fulfilled (fun _ => QueryError)) "manifesto-3" eq_refl)).
Defined.


(** ** The suggestions route: what the feed holds and what is stored *)

Section TrimFacts.
Import Js.

Lemma trimStart_head (s : string) (c : ascii) (t : string) :
  trimStart s = String c t -> is_space c = false.
Proof.
  induction s as [|d s IH]; simpl; [discriminate|].
  destruct (is_space d) eqn:E; [exact IH|]. now intros [= <- _].
Qed.

Lemma trimEnd_head (c : ascii) (s : string) :
  is_space c = false -> exists t, trimEnd (String c s) = String c t.
Proof.
  intros Hc. simpl. destruct (trimEnd s); rewrite ?Hc; eauto.
Qed.

Lemma trimEnd_idempotent (s : string) : trimEnd (trimEnd s) = trimEnd s.
Proof.
  induction s as [|c s IH]; [reflexivity|]. simpl.
  destruct (trimEnd s) as [|d t] eqn:E.
  - destruct (is_space c) eqn:Hc; [reflexivity|]. simpl. now rewrite Hc.
  - simpl. simpl in IH. destruct (trimEnd t) as [|e u].
    + destruct (is_space d); [discriminate IH|]. now rewrite IH.
    + now rewrite IH.
Qed.

Lemma trim_idempotent (s : string) : trim (trim s) = trim s.
Proof.
  unfold trim. destruct (trimStart s) as [|c u] eqn:E; [reflexivity|].
  pose proof (trimStart_head s c u E) as Hc.
  destruct (trimEnd_head c u Hc) as [t Ht]. rewrite Ht.
  simpl trimStart. rewrite Hc, <- Ht. apply trimEnd_idempotent.
Qed.

End TrimFacts.

Section Stored.
Import SuggestionsRoute.

Lemma StronglySorted_map {A B : Type} (f : A -> B) (R : B -> B -> Prop) (l : list A) :
  StronglySorted (fun x y => R (f x) (f y)) l -> StronglySorted R (map f l).
Proof.
  induction 1 as [|x l Hl IH Hx]; simpl; constructor; [exact IH|].
  apply List.Forall_map. exact Hx.
Qed.

(** X7. The feed of a response with status 200 is exactly the approved
    suggestions of the agenda that was asked for: each of them is in it,
    nothing else is, and they come newest first. *)
Theorem GET_feed_exact (be : Backend) (w : World) (agendaId : option string)
    (items : list Item) (queryId : string) :
  GET be w agendaId = Json 200 (Feed items queryId) ->
  Permutation items
    (map selectItem
       (List.filter (fun r => String.eqb (Db.agenda_id r) queryId
                              && String.eqb (Db.status r) "approved") (suggestions w))) /\
  StronglySorted (fun a b => created_at b <= created_at a) items /\
  (forall r, In r (suggestions w) -> Db.agenda_id r = queryId ->
             Db.status r = "approved" -> In (selectItem r) items).
Proof.
  unfold GET, invalidAgenda.
  destruct agendaId as [[|c s]|]; try discriminate.
  destruct (negb _ || falsy _); [discriminate|].
  destruct (selectError be); [discriminate|].
  intros [= <- <-]. unfold queryApproved.
  set (queryId := default EmptyString _).
  assert (HP : Permutation
                 (map selectItem
                    (JsArray.sort newestFirst (List.filter (approvedOf queryId) (suggestions w))))
                 (map selectItem (List.filter (approvedOf queryId) (suggestions w))))
    by apply Permutation_map, sort_Permutation.
  split; [exact HP|]. split.
  - apply StronglySorted_map.
    eapply StronglySorted_weaken; [|apply (sort_StronglySorted newestFirst)].
    + intros x y H. unfold newestFirst in H. simpl. lia.
    + intros x y. unfold newestFirst. lia.
    + intros x y z. unfold newestFirst. lia.
  - intros r Hin Ha Hs. eapply Permutation_in; [symmetry; exact HP|].
    apply in_map, filter_In. split; [exact Hin|].
    unfold approvedOf. rewrite Ha, Hs, !String.eqb_refl. reflexivity.
Qed.

Lemma check_Given (v : Value) (s : string) :
  check v = Given s -> v = VString s /\ Js.trim s <> EmptyString.
Proof.
  destruct v as [[|c t]|[|]]; simpl; try discriminate.
  destruct (Js.trim (String c t)) eqn:E; simpl; [discriminate|].
  intros [= <-]. split; [reflexivity|]. rewrite E. discriminate.
Qed.

(** X8. The route writes exactly when it answers with the suggestion that
    it created. Then one row is added at the end of the table and one email
    is queued, the origin was allowed, the session has a user and no error
    and the insert reported none; the row has that user's id, the id and the
    timestamp given by the database, the UUID that the agenda id resolves
    to, the content and the author name of the body with the white space
    at both ends removed, and the status "approved" exactly when the
    setting auto_approve_suggestions is [true], "pending" otherwise. With
    any other answer the table and the emails are as they were. *)
Theorem POST_writes_only_on_success (be : Backend) (w : World) (req : Request) :
  match fst (POST be w req) with
  | Json status (Created row message auto) =>
      status = 200 /\
      suggestions (snd (POST be w req)) = (suggestions w ++ [row])%list /\
      emails (snd (POST be w req))
      = (emails w ++ [mkEmail (Db.author_name row) (Db.content row)
                              (titleOf (agendaTitle be (Db.agenda_id row)))])%list /\
      originAllowed req = true /\
      authError (getUser be) = false /\
      user (getUser be) = Some (Db.user_id row) /\
      insertError be = false /\
      Db.id row = newId be /\ Db.created_at row = now be /\
      Db.status row = (if auto then "approved" else "pending") /\
      (auto = true <-> systemSettings be = Data (Some true)) /\
      message = confirmationMessage auto /\
      exists b c a,
        body req = Some b /\
        body_content b = VString c /\ body_author_name b = VString a /\
        Db.content row = Js.trim c /\ Db.author_name row = Js.trim a /\
        UuidHelpers.agendaUUID
          (UuidHelpers.validateAndNormalizeAgendaId (Fulfilled (findAgenda be))
             (default EmptyString (agenda_id b)))
        = Some (Db.agenda_id row)
  | _ =>
      suggestions (snd (POST be w req)) = suggestions w /\
      emails (snd (POST be w req)) = emails w
  end.
Proof.
  unfold POST.
  destruct (originAllowed req) eqn:Ho; simpl negb; cbv iota; [|now split].
  destruct (RateLimit.checkRateLimit _ _ _ _ _ _) as [ok log].
  destruct ok; simpl negb; cbv iota; [|now split].
  destruct (authError (getUser be)) eqn:He; [now split|].
  destruct (user (getUser be)) as [uid|] eqn:Hu; [|now split].
  destruct (body req) as [b|] eqn:Hb; [|now split].
  destruct (falsy (agenda_id b)); [now split|].
  destruct (check (body_content b)) as [| |c] eqn:Hc; try (now split).
  destruct (check (body_author_name b)) as [| |a] eqn:Ha; try (now split).
  apply check_Given in Hc as [Hc _]. apply check_Given in Ha as [Ha _].
  unfold invalidAgenda.
  destruct (negb _ || falsy _) eqn:Hv; [now split|].
  destruct (insertError be) eqn:Hi; [now split|].
  apply orb_false_iff in Hv as [_ Hv].
  destruct (UuidHelpers.agendaUUID _) as [[|q queryId]|] eqn:Hq; try discriminate Hv.
  simpl. repeat split; try reflexivity.
  - intros H. unfold autoApproveOf in H.
    destruct (systemSettings be) as [[[|]|]| |]; try discriminate H. reflexivity.
  - intros ->. reflexivity.
  - exists b, c, a. repeat split; assumption || reflexivity.
Qed.

(** X9. What is stored is never blank: the content and the author name
    of a row that the route creates are not empty and have no white space
    at either end. *)
Theorem POST_stores_trimmed (be : Backend) (w : World) (req : Request)
    (status : Z) (row : Db.Suggestion) (message : string) (auto : bool) :
  fst (POST be w req) = Json status (Created row message auto) ->
  Db.content row <> EmptyString /\ Js.trim (Db.content row) = Db.content row /\
  Db.author_name row <> EmptyString /\ Js.trim (Db.author_name row) = Db.author_name row.
Proof.
  unfold POST.
  destruct (originAllowed req); simpl negb; cbv iota; [|discriminate].
  destruct (RateLimit.checkRateLimit _ _ _ _ _ _) as [ok log].
  destruct ok; simpl negb; cbv iota; [|discriminate].
  destruct (authError (getUser be)); [discriminate|].
  destruct (user (getUser be)) as [uid|]; [|discriminate].
  destruct (body req) as [b|]; [|discriminate].
  destruct (falsy (agenda_id b)); [discriminate|].
  destruct (check (body_content b)) as [| |c] eqn:Hc; try discriminate.
  destruct (check (body_author_name b)) as [| |a] eqn:Ha; try discriminate.
  apply check_Given in Hc as [_ Hc]. apply check_Given in Ha as [_ Ha].
  unfold invalidAgenda.
  destruct (negb _ || falsy _); [discriminate|].
  destruct (insertError be); [discriminate|].
  simpl. intros [= _ <- _ _]. simpl.
  rewrite !trim_idempotent. repeat split; assumption.
Qed.

End Stored.

Section Moderation.
Import SuggestionsRoute.

(** X10. Creation and feed together. After a suggestion is created, the
    feed of its agenda, asked for with the agenda id of the request, holds
    it at once when it was approved automatically; when it was not, the
    feed is what it was before. *)
Theorem POST_then_GET (be : Backend) (w : World) (req : Request) (b : Body)
    (status : Z) (row : Db.Suggestion) (message : string) (auto : bool) :
  fst (POST be w req) = Json status (Created row message auto) ->
  body req = Some b ->
  selectError be = false ->
  (auto = true ->
   exists items,
     GET be (snd (POST be w req)) (agenda_id b)
     = Json 200 (Feed items (Db.agenda_id row)) /\
     In (selectItem row) items) /\
  (auto = false ->
   GET be (snd (POST be w req)) (agenda_id b) = GET be w (agenda_id b)).
Proof.
  intros HP Hb Hs. revert HP. unfold POST. rewrite Hb.
  destruct (originAllowed req); simpl negb; cbv iota; [|discriminate].
  destruct (RateLimit.checkRateLimit _ _ _ _ _ _) as [ok log].
  destruct ok; simpl negb; cbv iota; [|discriminate].
  destruct (authError (getUser be)); [discriminate|].
  destruct (user (getUser be)) as [uid|]; [|discriminate].
  destruct (agenda_id b) as [[|c0 aid]|] eqn:Hid; simpl falsy; cbv iota;
    try discriminate.
  destruct (check (body_content b)) as [| |c]; try discriminate.
  destruct (check (body_author_name b)) as [| |a]; try discriminate.
  unfold invalidAgenda. simpl default.
  destruct (negb _ || falsy _) eqn:Hv; [discriminate|].
  destruct (insertError be); [discriminate|].
  simpl. intros [= _ <- _ <-]. simpl.
  unfold GET. rewrite Hv, Hs. unfold queryApproved. simpl suggestions.
  set (queryId := default EmptyString _).
  rewrite List.filter_app. split.
  - intros Ha. eexists. split; [reflexivity|].
    apply in_map.
    eapply Permutation_in; [symmetry; apply sort_Permutation|].
    apply in_or_app. right. simpl. unfold approvedOf at 1. simpl.
    rewrite Ha, !String.eqb_refl. simpl. now left.
  - intros Ha. simpl List.filter at 2. unfold approvedOf at 2. simpl.
    rewrite Ha, andb_false_r, app_nil_r. reflexivity.
Qed.

End Moderation.

Lemma POST_then_GET_witness :
  let be := fun auto : bool =>
    SuggestionsRoute.mkBackend (mkAuth (Some "u-1") false)
      (fun _ => PGRST116) (fun _ => PGRST116) (Data (Some auto))
      false false "s-9" 1700000000000 in
  let b := SuggestionsRoute.mkBody (Some "12")
             (SuggestionsRoute.VString "  Publish the budget ")
             (SuggestionsRoute.VString "Asha") in
  let req := SuggestionsRoute.mkRequest true "203.0.113.7" 0 (Some b) in
  let w := SuggestionsRoute.mkWorld [] [] [] in
  let row := fun auto : bool =>
    Db.mkSuggestion "s-9" (UuidHelpers.generateDeterministicUUID "manifesto-12") "u-1"
      "Publish the budget" "Asha" (if auto then "approved" else "pending")
      1700000000000 in
  (exists items,
      SuggestionsRoute.GET (be true) (snd (SuggestionsRoute.POST (be true) w req))
        (SuggestionsRoute.agenda_id b)
      = SuggestionsRoute.Json 200
          (SuggestionsRoute.Feed items (Db.agenda_id (row true))) /\
      In (SuggestionsRoute.selectItem (row true)) items) /\
  SuggestionsRoute.GET (be false) (snd (SuggestionsRoute.POST (be false) w req))
    (SuggestionsRoute.agenda_id b)
  = SuggestionsRoute.GET (be false) w (SuggestionsRoute.agenda_id b).
Proof.
  intros be b req w row.
  assert (H1 : fst (SuggestionsRoute.POST (be true) w req)
               = SuggestionsRoute.Json 200
                   (SuggestionsRoute.Created (row true)
                      (SuggestionsRoute.confirmationMessage true) true))
    by (vm_compute; reflexivity).
  assert (H0 : fst (SuggestionsRoute.POST (be false) w req)
               = SuggestionsRoute.Json 200
                   (SuggestionsRoute.Created (row false)
                      (SuggestionsRoute.confirmationMessage false) false))
    by (vm_compute; reflexivity).
  split.
  - exact (proj1 (POST_then_GET (be true) w req b _ _ _ _ H1 eq_refl eq_refl) eq_refl).
  - exact (proj2 (POST_then_GET (be false) w req b _ _ _ _ H0 eq_refl eq_refl) eq_refl).
Defined.

Lemma POST_stores_trimmed_witness :
  let be := SuggestionsRoute.mkBackend (mkAuth (Some "u-1") false)
              (fun _ => PGRST116) (fun _ => PGRST116) PGRST116
              false false "s-9" 1700000000000 in
  let b := SuggestionsRoute.mkBody (Some "12")
             (SuggestionsRoute.VString "  Publish the budget ")
             (SuggestionsRoute.VString " Asha ") in
  let req := SuggestionsRoute.mkRequest true "203.0.113.7" 0 (Some b) in
  let w := SuggestionsRoute.mkWorld [] [] [] in
  exists row message,
    fst (SuggestionsRoute.POST be w req)
    = SuggestionsRoute.Json 200 (SuggestionsRoute.Created row message false) /\
    Db.content row = "Publish the budget" /\ Db.author_name row = "Asha" /\
    Js.trim (Db.content row) = Db.content row.
Proof.
  intros be b req w. eexists _, _.
  assert (H : fst (SuggestionsRoute.POST be w req)
              = SuggestionsRoute.Json 200
                  (SuggestionsRoute.Created
                     (Db.mkSuggestion "s-9"
                        (UuidHelpers.generateDeterministicUUID "manifesto-12") "u-1"
                        "Publish the budget" "Asha" "pending" 1700000000000)
                     (SuggestionsRoute.confirmationMessage false) false))
    by (vm_compute; reflexivity).
  split; [exact H|]. split; [reflexivity|]. split; [reflexivity|].
  exact (proj1 (proj2 (POST_stores_trimmed be w req _ _ _ _ H))).
Defined.

Lemma GET_feed_exact_witness :
  let uuid := "123e4567-e89b-42d3-a456-426614174000" in
  let be := SuggestionsRoute.mkBackend (mkAuth None false)
              (fun _ => PGRST116) (fun _ => PGRST116) PGRST116
              false false "new-id" 0 in
  let older := Db.mkSuggestion "s-1" uuid "u-1" "Publish the budget" "Asha" "approved" 10 in
  let newer := Db.mkSuggestion "s-2" uuid "u-2" "Audit the tenders" "Bina" "approved" 20 in
  let pending := Db.mkSuggestion "s-3" uuid "u-3" "Plant trees" "Chandra" "pending" 30 in
  let w := SuggestionsRoute.mkWorld [] [older; pending; newer] [] in
  SuggestionsRoute.GET be w (Some uuid)
  = SuggestionsRoute.Json 200
      (SuggestionsRoute.Feed
         [SuggestionsRoute.selectItem newer; SuggestionsRoute.selectItem older] uuid) /\
  StronglySorted
    (fun x y => SuggestionsRoute.created_at y <= SuggestionsRoute.created_at x)
    [SuggestionsRoute.selectItem newer; SuggestionsRoute.selectItem older].
Proof.
  intros uuid be older newer pending w.
  assert (H : SuggestionsRoute.GET be w (Some uuid)
              = SuggestionsRoute.Json 200
                  (SuggestionsRoute.Feed
                     [SuggestionsRoute.selectItem newer; SuggestionsRoute.selectItem older]
                     uuid)) by (vm_compute; reflexivity).
  split; [exact H|].
  exact (proj1 (proj2 (GET_feed_exact be w (Some uuid) _ _ H))).
Defined.

(** ** The server client factory and the middleware *)

Section Factory.
Import SupabaseServer SuggestionsRoute.

Lemma connect_unset (url key : option string) :
  Middleware.unset url || Middleware.unset key = true -> connect url key = Mock.
Proof.
  destruct url as [[|c u]|], key as [[|d k]|]; simpl; try reflexivity. discriminate.
Qed.

(** X11. When the middleware skips its checks because the address or the
    key of the database is not set, [createClient] gives the mock client.
    Through it the suggestions route finds no session: a creation is
    answered 403, by the limiter, or 401 and writes nothing, and a feed that
    is answered with status 200 is empty. *)
Theorem createClient_mock_when_middleware_skips (env : Middleware.Env) :
  Middleware.unset (Middleware.NEXT_PUBLIC_SUPABASE_URL env)
  || Middleware.unset (Middleware.NEXT_PUBLIC_SUPABASE_ANON_KEY env) = true ->
  (forall getUser0 profiles pathname,
      Middleware.middleware env getUser0 profiles pathname = Middleware.Next) /\
  createClient env = Mock /\
  (forall be w req,
      let r := POST (backendOf (createClient env) be) w req in
      suggestions (snd r) = suggestions w /\ emails (snd r) = emails w /\
      (fst r = Json 403 (Error "Forbidden") \/ fst r = RateLimited \/
       fst r = Json 401 (Error "User not authenticated"))) /\
  (forall be w agendaId payload,
      GET (backendOf (createClient env) be) (tablesOf (createClient env) w) agendaId
      = Json 200 payload ->
      exists queryId, payload = Feed [] queryId).
Proof.
  intros Hskip.
  assert (Hmock : createClient env = Mock) by (now apply connect_unset).
  split; [|split; [exact Hmock|split]].
  - intros getUser0 profiles pathname. unfold Middleware.middleware. now rewrite Hskip.
  - intros be w req. rewrite Hmock. simpl backendOf. unfold POST.
    destruct (originAllowed req); simpl negb; cbv iota; [|simpl; auto].
    destruct (RateLimit.checkRateLimit _ _ _ _ _ _) as [ok log].
    destruct ok; simpl; auto.
  - intros be w agendaId payload. rewrite Hmock. simpl backendOf. simpl tablesOf.
    unfold GET, invalidAgenda.
    destruct agendaId as [[|c s]|]; try discriminate.
    destruct (negb _ || falsy _); [discriminate|].
    simpl. intros [= <-]. eauto.
Qed.

End Factory.

Lemma createClient_mock_when_middleware_skips_witness :
  let env := Middleware.mkEnv (Some "https://db.example") None in
  SupabaseServer.createClient env = SupabaseServer.Mock /\
  Middleware.middleware env (mkAuth None false) (fun _ => PGRST116) "/api/admin/users"
  = Middleware.Next.
Proof.
  intros env.
  destruct (createClient_mock_when_middleware_skips env eq_refl) as (H1 & H2 & _).
  split; [exact H2 | apply H1].
Defined.

(** ** The suggestion list: the reply to a vote, and two clicks *)

Section VoteReply.
Import SuggestionList.

(** X12. What [handleVote] leaves once the server has answered. When the
    response is not ok, the vote and the counts of the suggestion are the
    ones read before the click (the optimistic update is undone); when it is
    ok, they are the ones of the response; when [fetch] itself fails, the
    optimistic update stays. The other suggestions are never touched, and a
    visitor who is not signed in changes nothing. *)
Theorem handleVote_reply (st : State) (id0 : string) (type : VoteType) (reply : Reply) :
  match reply with
  | NotOk =>
      currentVoteOf (handleVote true st id0 type reply) id0 = currentVoteOf st id0 /\
      currentCountsOf (handleVote true st id0 type reply) id0 = currentCountsOf st id0
  | Ok userVote likes0 dislikes0 =>
      currentVoteOf (handleVote true st id0 type reply) id0 = userVote /\
      currentCountsOf (handleVote true st id0 type reply) id0 = mkCounts likes0 dislikes0
  | FetchThrows =>
      handleVote true st id0 type reply = handleVoteOptimistic true st id0 type
  end /\
  (forall other, other <> id0 ->
     currentVoteOf (handleVote true st id0 type reply) other = currentVoteOf st other /\
     currentCountsOf (handleVote true st id0 type reply) other = currentCountsOf st other) /\
  handleVote false st id0 type reply = st.
Proof.
  split; [|split; [|reflexivity]].
  - unfold handleVote. simpl negb. cbv iota.
    destruct reply; [reflexivity | |];
      now rewrite currentVoteOf_setVote, currentCountsOf_setVote.
  - intros other Hne.
    destruct (handleVoteOptimistic_other true st id0 type other Hne) as [H1 H2].
    unfold handleVote. simpl negb. cbv iota.
    destruct reply; [now split | |];
      unfold currentVoteOf, currentCountsOf, setVote in *; simpl;
      rewrite !lookup_insert_ne by congruence; now split.
Qed.

(** X13. Two clicks on the same button. From a suggestion on which the
    user has no vote, or has the vote of that button with a count of at
    least one, the second optimistic update gives back the vote and the
    counts that the first one changed; the counts are supposed not
    negative. *)
Theorem handleVoteOptimistic_twice (st : State) (id0 : string) (type : VoteType) :
  0 <= likes (currentCountsOf st id0) ->
  0 <= dislikes (currentCountsOf st id0) ->
  currentVoteOf st id0 = None \/
  (currentVoteOf st id0 = Some type /\ 1 <= countOf type (currentCountsOf st id0)) ->
  let st2 := handleVoteOptimistic true (handleVoteOptimistic true st id0 type) id0 type in
  currentVoteOf st2 id0 = currentVoteOf st id0 /\
  currentCountsOf st2 id0 = currentCountsOf st id0.
Proof.
  intros Hl Hd Hstart st2. unfold st2, handleVoteOptimistic. simpl negb. cbv iota.
  destruct (optimistic (currentVoteOf st id0) (currentCountsOf st id0) type)
    as [v1 c1] eqn:E1.
  rewrite currentVoteOf_setVote, currentCountsOf_setVote.
  destruct (optimistic v1 c1 type) as [v2 c2] eqn:E2.
  rewrite currentVoteOf_setVote, currentCountsOf_setVote.
  destruct (currentCountsOf st id0) as [l d] eqn:Ec. simpl in *.
  revert E1. unfold optimistic.
  destruct Hstart as [-> | [-> Hone]]; destruct type; simpl in *;
    intros [= <- <-]; revert E2; unfold optimistic; simpl;
    intros [= <- <-]; split; try reflexivity; f_equal; lia.
Qed.

(** The counts that the optimistic update stores are never negative,
    whatever the counts and the vote before it. *)
Lemma optimistic_counts_nonnegative
    (currentVote : option VoteType) (currentCounts : Counts) (type : VoteType) :
  0 <= likes (snd (optimistic currentVote currentCounts type)) /\
  0 <= dislikes (snd (optimistic currentVote currentCounts type)).
Proof.
  unfold optimistic.
  destruct currentVote as [[]|], type; simpl; split; apply Z.le_max_l.
Qed.

End VoteReply.

Lemma handleVote_reply_witness :
  let st := SuggestionList.mkState
              (<["s-1" := Some SuggestionList.like]> (<["s-2" := None]> ∅))
              (<["s-1" := SuggestionList.mkCounts 5 1]>
                 (<["s-2" := SuggestionList.mkCounts 2 2]> ∅)) in
  let st' := SuggestionList.handleVote true st "s-1" SuggestionList.dislike
               SuggestionList.NotOk in
  SuggestionList.currentCountsOf st' "s-1" = SuggestionList.mkCounts 5 1 /\
  SuggestionList.currentCountsOf st' "s-2" = SuggestionList.mkCounts 2 2.
Proof.
  intros st st'.
  destruct (handleVote_reply st "s-1" SuggestionList.dislike SuggestionList.NotOk)
    as ([_ H1] & H2 & _).
  split; [exact H1|].
  exact (proj2 (H2 "s-2" ltac:(discriminate))).
Defined.

Lemma handleVoteOptimistic_twice_witness :
  let st := SuggestionList.mkState ∅ (<["s-1" := SuggestionList.mkCounts 5 1]> ∅) in
  let st2 := SuggestionList.handleVoteOptimistic true
               (SuggestionList.handleVoteOptimistic true st "s-1" SuggestionList.like)
               "s-1" SuggestionList.like in
  SuggestionList.currentVoteOf st2 "s-1" = None /\
  SuggestionList.currentCountsOf st2 "s-1" = SuggestionList.mkCounts 5 1.
Proof.
  intros st st2.
  apply (handleVoteOptimistic_twice st "s-1" SuggestionList.like).
  - vm_compute. discriminate.
  - vm_compute. discriminate.
  - left. reflexivity.
Defined.

(** ** The suggestion list: the badges and the orders by date *)

Section Badges.
Import SuggestionList.

Lemma imap_isTopSuggestion_cons (sortBy : SortBy) (n : nat)
    (s : SuggestionWithScore) (l : list SuggestionWithScore) :
  imap (fun i => isTopSuggestion sortBy (n + i)) (s :: l)
  = isTopSuggestion sortBy n s :: imap (fun i => isTopSuggestion sortBy (S n + i)) l.
Proof.
  rewrite imap_cons. rewrite Nat.add_0_r. f_equal.
  apply imap_ext. intros i x _. simpl. f_equal. lia.
Qed.

(** No badge from the fourth row on, and none on a row whose net score is
    not positive. *)
Lemma imap_isTopSuggestion_none (l : list SuggestionWithScore) :
  forall n : nat,
    (3 <= n)%nat \/ Forall (fun s => netScore s <= 0) l ->
    imap (fun i => isTopSuggestion popularity (n + i)) l = repeat false (length l).
Proof.
  induction l as [|s l IH]; intros n H; [reflexivity|].
  rewrite imap_isTopSuggestion_cons. simpl. f_equal.
  - unfold isTopSuggestion. destruct H as [H|H].
    + apply Nat.ltb_ge in H. now rewrite H.
    + apply List.Forall_cons_iff in H as [H _].
      apply Z.ltb_ge in H. now rewrite H, andb_false_r.
  - apply (IH (S n)). destruct H as [H|H]; [left; lia | right].
    now apply List.Forall_cons_iff in H as [_ H].
Qed.

Lemma imap_isTopSuggestion_prefix (l : list SuggestionWithScore) :
  forall n : nat,
    StronglySorted (fun x y => netScore y <= netScore x) l ->
    exists k : nat,
      (k <= 3 - n)%nat /\ (k <= length l)%nat /\
      imap (fun i => isTopSuggestion popularity (n + i)) l
      = (repeat true k ++ repeat false (length l - k))%list.
Proof.
  induction l as [|s l IH]; intros n Hs.
  - exists 0%nat. repeat split; simpl; lia.
  - apply StronglySorted_inv in Hs as [Hs Hall].
    rewrite imap_isTopSuggestion_cons.
    destruct (isTopSuggestion popularity n s) eqn:E.
    + destruct (IH (S n) Hs) as (k & Hk & Hlen & ->).
      unfold isTopSuggestion in E. apply andb_true_iff in E as [E _].
      apply Nat.ltb_lt in E.
      exists (S k). split; [lia|]. split; [simpl; lia|]. reflexivity.
    + exists 0%nat. split; [lia|]. split; [simpl; lia|].
      cbn [repeat length app Nat.sub]. f_equal.
      apply (imap_isTopSuggestion_none l (S n)).
      unfold isTopSuggestion in E. apply andb_false_iff in E as [E|E].
      * left. apply Nat.ltb_ge in E. lia.
      * right. apply Z.ltb_ge in E.
        eapply List.Forall_impl; [|exact Hall]. intros y Hy. simpl in Hy. lia.
Qed.

(** X14. In the order of popularity the badges are on the first rows
    only: some number of rows, at most three, from the top have one, and
    no row below them has; in the orders by date no row has a badge. *)
Theorem topFlags_prefix (suggestions : list Suggestion)
    (voteCounts0 : gmap string Counts) (sortBy : SortBy) :
  let sorted := sortedSuggestions suggestions voteCounts0 sortBy in
  match sortBy with
  | popularity =>
      exists k : nat,
        (k <= 3)%nat /\ (k <= length sorted)%nat /\
        topFlags sortBy sorted = (repeat true k ++ repeat false (length sorted - k))%list
  | _ => topFlags sortBy sorted = repeat false (length sorted)
  end.
Proof.
  intros sorted. destruct sortBy.
  - destruct (imap_isTopSuggestion_prefix sorted 0) as (k & Hk & Hlen & E).
    + unfold sorted, sortedSuggestions.
      eapply StronglySorted_weaken;
        [|apply (sort_StronglySorted (compareFn popularity))].
      * intros x y H. apply popularity_before in H. exact (proj1 H).
      * intros x y.
        destruct (Z_le_gt_dec (compareFn popularity x y) 0) as [H|H]; [now left|].
        right. apply popularity_before.
        assert (~ (netScore y <= netScore x /\
                   (netScore x = netScore y ->
                    totalEngagement y <= totalEngagement x)))
          by (rewrite <- popularity_before; lia).
        lia.
      * intros x y z H1%popularity_before H2%popularity_before.
        apply popularity_before. lia.
    + exists k. repeat split; [lia | exact Hlen | exact E].
  - unfold topFlags. generalize sorted. intros l.
    change (imap (fun _ _ => false) l = repeat false (length l)).
    induction l as [|x l IH]; [reflexivity|].
    rewrite imap_cons. simpl. f_equal. exact IH.
  - unfold topFlags. generalize sorted. intros l.
    change (imap (fun _ _ => false) l = repeat false (length l)).
    induction l as [|x l IH]; [reflexivity|].
    rewrite imap_cons. simpl. f_equal. exact IH.
Qed.

Lemma sortedSuggestions_newest_sorted (suggestions : list Suggestion)
    (voteCounts0 : gmap string Counts) :
  StronglySorted (fun x y => created_at (suggestion y) <= created_at (suggestion x))
                 (sortedSuggestions suggestions voteCounts0 newest).
Proof.
  unfold sortedSuggestions.
  eapply StronglySorted_weaken; [|apply (sort_StronglySorted (compareFn newest))].
  - intros x y H. simpl in H. lia.
  - intros x y. simpl. lia.
  - intros x y z. simpl. lia.
Qed.

Lemma sortedSuggestions_oldest_sorted (suggestions : list Suggestion)
    (voteCounts0 : gmap string Counts) :
  StronglySorted (fun x y => created_at (suggestion x) <= created_at (suggestion y))
                 (sortedSuggestions suggestions voteCounts0 oldest).
Proof.
  unfold sortedSuggestions.
  eapply StronglySorted_weaken; [|apply (sort_StronglySorted (compareFn oldest))].
  - intros x y H. simpl in H. lia.
  - intros x y. simpl. lia.
  - intros x y z. simpl. lia.
Qed.

Lemma sortedSuggestions_Permutation (suggestions : list Suggestion)
    (voteCounts0 : gmap string Counts) (sortBy : SortBy) :
  Permutation (sortedSuggestions suggestions voteCounts0 sortBy)
              (map (withScore voteCounts0) suggestions).
Proof. apply sort_Permutation. Qed.

(** X15. In the orders by date the list is a permutation of the
    suggestions with their scores, newest first for "newest" (no row is
    newer than a row above it) and oldest first for "oldest". *)
Theorem sortedSuggestions_by_date (suggestions : list Suggestion)
    (voteCounts0 : gmap string Counts) :
  Permutation (sortedSuggestions suggestions voteCounts0 newest)
              (map (withScore voteCounts0) suggestions) /\
  StronglySorted (fun x y => created_at (suggestion y) <= created_at (suggestion x))
                 (sortedSuggestions suggestions voteCounts0 newest) /\
  Permutation (sortedSuggestions suggestions voteCounts0 oldest)
              (map (withScore voteCounts0) suggestions) /\
  StronglySorted (fun x y => created_at (suggestion x) <= created_at (suggestion y))
                 (sortedSuggestions suggestions voteCounts0 oldest).
Proof.
  split; [apply sortedSuggestions_Permutation|].
  split; [apply sortedSuggestions_newest_sorted|].
  split; [apply sortedSuggestions_Permutation | apply sortedSuggestions_oldest_sorted].
Qed.

Lemma StronglySorted_rev {A : Type} (R : A -> A -> Prop) (l : list A) :
  StronglySorted (fun x y => R y x) l -> StronglySorted R (rev l).
Proof.
  induction 1 as [|x l Hl IH Hx]; simpl; [constructor|].
  apply StronglySorted_app_2; [|exact IH | repeat constructor].
  intros x1 x2 H1 H2. apply list_elem_of_In in H1, H2.
  destruct H2 as [<-|[]]. apply in_rev in H1.
  rewrite List.Forall_forall in Hx. now apply Hx.
Qed.

Lemma NoDup_map_inj {A B : Type} (f : A -> B) (l : list A) (x y : A) :
  List.NoDup (map f l) -> In x l -> In y l -> f x = f y -> x = y.
Proof.
  induction l as [|a l IH]; simpl; [contradiction|].
  intros Hnd [<-|Hx] [<-|Hy] E; inversion Hnd as [|? ? Hnot Hnd']; subst.
  - reflexivity.
  - exfalso. apply Hnot. rewrite E. now apply in_map.
  - exfalso. apply Hnot. rewrite <- E. now apply in_map.
  - now apply IH.
Qed.

(** X16. When no two suggestions have the same timestamp, the order
    "newest" is the order "oldest" read from the end. *)
Theorem sortedSuggestions_newest_rev_oldest (suggestions : list Suggestion)
    (voteCounts0 : gmap string Counts) :
  List.NoDup (map created_at suggestions) ->
  sortedSuggestions suggestions voteCounts0 newest
  = rev (sortedSuggestions suggestions voteCounts0 oldest).
Proof.
  intros Hnd.
  pose proof (sortedSuggestions_Permutation suggestions voteCounts0 newest) as Pn.
  pose proof (sortedSuggestions_Permutation suggestions voteCounts0 oldest) as Po.
  apply (StronglySorted_unique_strong
           (fun x y => created_at (suggestion y) <= created_at (suggestion x))).
  - intros x1 x2 H1 H2 Hle Hge.
    apply list_elem_of_In in H1, H2.
    apply (NoDup_map_inj (fun s => created_at (suggestion s))
             (map (withScore voteCounts0) suggestions)).
    + rewrite map_map. simpl. exact Hnd.
    + eapply Permutation_in; [exact Pn | exact H1].
    + eapply Permutation_in; [exact Po|]. now apply in_rev.
    + lia.
  - apply sortedSuggestions_newest_sorted.
  - apply StronglySorted_rev, sortedSuggestions_oldest_sorted.
  - rewrite Pn, <- Po. apply Permutation_rev.
Qed.

End Badges.

Lemma sortedSuggestions_newest_rev_oldest_witness :
  let a := SuggestionList.mkSuggestion "s-1" "Publish the budget" "Asha" 10 "u-1" in
  let b := SuggestionList.mkSuggestion "s-2" "Audit the tenders" "Bina" 30 "u-2" in
  let c := SuggestionList.mkSuggestion "s-3" "Plant trees" "Chandra" 20 "u-3" in
  SuggestionList.sortedSuggestions [a; b; c] ∅ SuggestionList.newest
  = rev (SuggestionList.sortedSuggestions [a; b; c] ∅ SuggestionList.oldest).
Proof.
  intros a b c. apply (sortedSuggestions_newest_rev_oldest [a; b; c] ∅).
  repeat constructor; simpl; intuition discriminate.
Defined.

(** ** The manifesto list: the tally of the votes *)

Section Tally.
Import ManifestoList.

Lemma countVote_lookup (map0 : gmap string Counts) (vote : Vote) (id0 : string) :
  countVote map0 vote !! id0
  = if String.eqb (manifesto_id vote) id0 then
      let current := default (mkCounts 0 0) (map0 !! id0) in
      Some (if String.eqb (vote_type vote) "like"
            then mkCounts (likes current + 1) (dislikes current)
            else if String.eqb (vote_type vote) "dislike"
            then mkCounts (likes current) (dislikes current + 1)
            else current)
    else map0 !! id0.
Proof.
  unfold countVote. destruct (String.eqb_spec (manifesto_id vote) id0) as [->|Hne].
  - now rewrite lookup_insert_eq.
  - now rewrite lookup_insert_ne.
Qed.

Lemma tally_cons (type id0 : string) (vote : Vote) (votes : list Vote) :
  tally type id0 (vote :: votes)
  = (if String.eqb (manifesto_id vote) id0 && String.eqb (vote_type vote) type
     then 1 else 0) + tally type id0 votes.
Proof.
  unfold tally. simpl.
  destruct (String.eqb (manifesto_id vote) id0 && String.eqb (vote_type vote) type);
    simpl length; lia.
Qed.

Lemma tally_none (type id0 : string) (votes : list Vote) :
  existsb (fun v => String.eqb (manifesto_id v) id0) votes = false ->
  tally type id0 votes = 0.
Proof.
  induction votes as [|vote votes IH]; [reflexivity|]. simpl existsb.
  intros [H1 H2]%orb_false_iff. rewrite tally_cons, H1, IH by exact H2. reflexivity.
Qed.

Lemma fold_countVote_lookup (votes : list Vote) :
  forall (map0 : gmap string Counts) (id0 : string),
    fold_left countVote votes map0 !! id0
    = if existsb (fun v => String.eqb (manifesto_id v) id0) votes then
        let current := default (mkCounts 0 0) (map0 !! id0) in
        Some (mkCounts (likes current + tally "like" id0 votes)
                       (dislikes current + tally "dislike" id0 votes))
      else map0 !! id0.
Proof.
  induction votes as [|vote votes IH]; intros map0 id0; [reflexivity|].
  simpl fold_left. rewrite IH, countVote_lookup, !tally_cons. simpl existsb.
  destruct (String.eqb (manifesto_id vote) id0) eqn:Hid; simpl; [|reflexivity].
  destruct (default (mkCounts 0 0) (map0 !! id0)) as [l d].
  destruct (existsb _ votes) eqn:Hex.
  - destruct (String.eqb (vote_type vote) "like") eqn:Hl.
    + apply String.eqb_eq in Hl. rewrite Hl. simpl. f_equal; f_equal; lia.
    + destruct (String.eqb (vote_type vote) "dislike") eqn:Hd; simpl;
        f_equal; f_equal; lia.
  - rewrite !(tally_none _ _ _ Hex).
    destruct (String.eqb (vote_type vote) "like") eqn:Hl.
    + apply String.eqb_eq in Hl. rewrite Hl. simpl. f_equal; f_equal; lia.
    + destruct (String.eqb (vote_type vote) "dislike") eqn:Hd; simpl;
        f_equal; f_equal; lia.
Qed.

(** X17. The map of the counts is the tally of the votes: an item has an
    entry exactly when the list holds a vote on it, and the entry has the
    number of its votes of type "like" and the number of its votes of type
    "dislike"; a vote of another type is counted in neither. *)
Theorem voteCountsMap_tally (votesData : list Vote) (id0 : string) :
  voteCountsMap votesData !! id0
  = if existsb (fun v => String.eqb (manifesto_id v) id0) votesData
    then Some (mkCounts (tally "like" id0 votesData) (tally "dislike" id0 votesData))
    else None.
Proof.
  unfold voteCountsMap. rewrite fold_countVote_lookup, lookup_empty. reflexivity.
Qed.

End Tally.

(** ** The manifesto list: the filters *)

Section Filters.
Import ManifestoList.

Lemma lookupMap_In (key : string) (m : list (string * Z)) (v : Z) :
  lookupMap key m = Some v -> In v (map snd m).
Proof.
  induction m as [|[k x] m IH]; simpl; [discriminate|].
  destruct (String.eqb k key); [intros [= ->]; now left | auto].
Qed.

(** The months of a timeline lie within the bounds of the slider. *)
Lemma getTimelineInMonths_bounds (timeline0 : string) (months : Z) :
  getTimelineInMonths timeline0 = Some months -> 6 <= months <= 60.
Proof.
  unfold getTimelineInMonths.
  destruct (lookupMap timeline0 timelineMap) as [v|] eqn:E.
  - intros [= <-]. apply lookupMap_In in E. simpl in E.
    repeat (destruct E as [<-|E]; [lia|]). contradiction.
  - destruct (existsb _ inherited); [discriminate|]. intros [= <-]. lia.
Qed.

Lemma nonEmpty_false {A : Type} (l : list A) : nonEmpty l = false -> l = [].
Proof. destruct l; [reflexivity | discriminate]. Qed.

Lemma hasActiveFilters_false (filters : FilterState) :
  hasActiveFilters filters = false ->
  searchQuery filters = EmptyString /\ selectedCategories filters = [] /\
  selectedPriorities filters = [] /\ timelineRange filters = (6, 60).
Proof.
  unfold hasActiveFilters. intros H.
  apply orb_false_iff in H as [H H5]. apply orb_false_iff in H as [H H4].
  apply orb_false_iff in H as [H H3]. apply orb_false_iff in H as [H1 H2].
  apply negb_false_iff, String.eqb_eq in H1.
  apply negb_false_iff, Z.eqb_eq in H4. apply negb_false_iff, Z.eqb_eq in H5.
  apply nonEmpty_false in H2, H3.
  destruct (timelineRange filters) as [lo hi]. simpl in H4, H5. subst. auto.
Qed.

(** X18. When no filter is active, and so after [clearFilters], the list
    hides nothing: every item passes, whatever its timeline is. *)
Theorem filteredData_no_active_filter
    (manifestoData : list ManifestoSummaryItem) (filters : FilterState) :
  hasActiveFilters filters = false ->
  filteredData manifestoData filters = manifestoData /\
  hasActiveFilters clearFilters = false /\
  filteredData manifestoData clearFilters = manifestoData.
Proof.
  assert (H : forall f, hasActiveFilters f = false ->
                        filteredData manifestoData f = manifestoData).
  { intros f (Hq & Hc & Hp & Hr)%hasActiveFilters_false.
    unfold filteredData. destruct manifestoData as [|x l] eqn:E; [reflexivity|].
    rewrite <- E. apply filter_true, List.Forall_forall. intros item _.
    unfold keeps. rewrite Hq, Hc, Hp, Hr. simpl.
    destruct (getTimelineInMonths (timeline item)) as [months|] eqn:Em; [|reflexivity].
    apply getTimelineInMonths_bounds in Em.
    destruct (months <? 6) eqn:E1; [apply Z.ltb_lt in E1; lia|].
    destruct (60 <? months) eqn:E2; [apply Z.ltb_lt in E2; lia|]. reflexivity. }
  intros Hf. split; [now apply H|]. split; [reflexivity | now apply H].
Qed.

Lemma includesString_In (l : list string) (x : string) :
  includesString l x = true <-> In x l.
Proof.
  unfold includesString. rewrite existsb_exists. split.
  - intros (y & Hy & E). apply String.eqb_eq in E. now subst.
  - intros H. exists x. split; [exact H | apply String.eqb_refl].
Qed.

(** X19. Unchecking a category takes every occurrence of it out of the
    selection and leaves the other categories; and checking a category that
    is not selected, then unchecking it, gives the filters back. *)
Theorem handleCategoryChange_uncheck (category0 : string) (prev : FilterState) :
  ~ In category0 (selectedCategories (handleCategoryChange category0 false prev)) /\
  (forall c, c <> category0 ->
     (In c (selectedCategories (handleCategoryChange category0 false prev))
      <-> In c (selectedCategories prev))) /\
  (~ In category0 (selectedCategories prev) ->
   handleCategoryChange category0 false (handleCategoryChange category0 true prev) = prev).
Proof.
  split; [|split].
  - simpl. rewrite filter_In. intros [_ H].
    now rewrite String.eqb_refl in H.
  - intros c Hne. simpl. rewrite filter_In. split; [tauto|].
    intros H. split; [exact H|]. apply negb_true_iff, String.eqb_neq. exact Hne.
  - intros Hnot. destruct prev as [q cats prios range adv].
    unfold handleCategoryChange. simpl in *. f_equal.
    rewrite List.filter_app. simpl. rewrite String.eqb_refl. simpl.
    rewrite app_nil_r. apply filter_true, List.Forall_forall.
    intros c Hc. apply negb_true_iff, String.eqb_neq. congruence.
Qed.

(** X20. What checking a category does to the list. With no category
    selected, it narrows the list to the items of that category; with some
    category selected already, it only adds items: every item that was shown
    is still shown. *)
Theorem filteredData_check_category
    (manifestoData : list ManifestoSummaryItem) (filters : FilterState)
    (category0 : string) (item : ManifestoSummaryItem) :
  (selectedCategories filters = [] ->
   In item (filteredData manifestoData (handleCategoryChange category0 true filters)) ->
   category item = category0) /\
  (selectedCategories filters <> [] ->
   In item (filteredData manifestoData filters) ->
   In item (filteredData manifestoData (handleCategoryChange category0 true filters))).
Proof.
  assert (Hin : forall f, In item (filteredData manifestoData f)
                          <-> In item manifestoData /\ keeps f item = true).
  { intros f. unfold filteredData. destruct manifestoData as [|x l] eqn:E.
    - simpl. tauto.
    - rewrite <- E. apply filter_In. }
  split.
  - intros Hnone [_ Hk]%Hin. revert Hk. unfold keeps, handleCategoryChange.
    cbn [searchQuery selectedCategories selectedPriorities timelineRange].
    rewrite Hnone. destruct (negb _); [discriminate|].
    change (nonEmpty ([] ++ [category0])%list) with true.
    destruct (includesString ([] ++ [category0]) (category item)) eqn:Hi;
      [|discriminate].
    intros _. apply includesString_In in Hi. destruct Hi as [<-|[]]. reflexivity.
  - intros Hsome [Hd Hk]%Hin. apply Hin. split; [exact Hd|].
    revert Hk. unfold keeps, handleCategoryChange.
    cbn [searchQuery selectedCategories selectedPriorities timelineRange].
    destruct (negb _); [discriminate|].
    destruct (selectedCategories filters) as [|c0 cats] eqn:Ec; [contradiction|].
    change (nonEmpty (c0 :: cats)) with true.
    change (nonEmpty ((c0 :: cats) ++ [category0])%list) with true.
    destruct (includesString (c0 :: cats) (category item)) eqn:Hi;
      [|discriminate].
    assert (Hi' : includesString ((c0 :: cats) ++ [category0]) (category item) = true).
    { apply includesString_In, in_or_app. left. now apply includesString_In. }
    rewrite Hi'. trivial.
Qed.

(** X21. The sort of the manifesto list by votes gives a permutation in
    which no item has a greater net score than an item above it, and items
    of equal net score stay in the order of the input; so when all the net
    scores are equal, as they are with the empty list of votes that
    [useVotes] gives, the list is left as it is. *)
Theorem sortedData_stable
    (filteredData0 : list ManifestoSummaryItem) (voteCountsMap0 : gmap string Counts) :
  Permutation (sortedData filteredData0 voteCountsMap0) filteredData0 /\
  StronglySorted (fun x y => score voteCountsMap0 y <= score voteCountsMap0 x)
                 (sortedData filteredData0 voteCountsMap0) /\
  (forall z,
      List.filter (fun y => score voteCountsMap0 y =? score voteCountsMap0 z)
                  (sortedData filteredData0 voteCountsMap0)
      = List.filter (fun y => score voteCountsMap0 y =? score voteCountsMap0 z)
                    filteredData0) /\
  ((forall x y, In x filteredData0 -> In y filteredData0 ->
                score voteCountsMap0 x = score voteCountsMap0 y) ->
   sortedData filteredData0 voteCountsMap0 = filteredData0) /\
  sortedData filteredData0 (voteCountsMap useVotes) = filteredData0.
Proof.
  assert (Hties : forall m z l,
             List.filter (fun y => score m y =? score m z)
                         (JsArray.sort (compareFn m) l)
             = List.filter (fun y => score m y =? score m z) l).
  { intros m z l. destruct l as [|x l]; [reflexivity|].
    apply (sortedData_ties (x :: l) m z). }
  assert (Hsame : forall m,
             (forall x y, In x filteredData0 -> In y filteredData0 ->
                          score m x = score m y) ->
             sortedData filteredData0 m = filteredData0).
  { intros m Hall. unfold sortedData.
    destruct filteredData0 as [|x l] eqn:E; [reflexivity|]. rewrite <- E in *.
    assert (Hx : In x filteredData0) by (rewrite E; now left).
    rewrite <- (filter_true (fun y => score m y =? score m x)
                  (JsArray.sort (compareFn m) filteredData0)).
    - rewrite Hties. apply filter_true, List.Forall_forall.
      intros y Hy. apply Z.eqb_eq. now apply Hall.
    - apply List.Forall_forall. intros y Hy. apply Z.eqb_eq. apply Hall; [|exact Hx].
      eapply Permutation_in; [apply sort_Permutation | exact Hy]. }
  destruct (sortedData_net_score filteredData0 voteCountsMap0) as [HP HS].
  split; [exact HP|]. split; [exact HS|]. split; [|split].
  - intros z. unfold sortedData.
    destruct filteredData0 as [|x l]; [reflexivity|]. apply Hties.
  - apply Hsame.
  - apply Hsame. intros x y _ _. reflexivity.
Qed.

End Filters.

(** ** The testimonials route: who may write *)

Section Staff.
Import TestimonialsRoute.

Lemma notStaff_false (profile : Single (option string)) :
  notStaff profile = false <->
  profile = Data (Some "admin") \/ profile = Data (Some "moderator").
Proof.
  unfold notStaff. destruct profile as [[role|]| |]; try (split; [discriminate|]);
    try (intros [H|H]; discriminate H).
  destruct role as [|c r]; [split; [discriminate | intros [H|H]; discriminate H]|].
  split.
  - intros H. apply andb_false_iff in H as [H|H];
      apply negb_false_iff, String.eqb_eq in H; rewrite H; auto.
  - intros [H|H].
    + assert (E : String c r = "admin") by congruence. now rewrite E.
    + assert (E : String c r = "moderator") by congruence. now rewrite E.
Qed.

(** X22. A testimonial is written by the staff only. The route adds the
    body of the request as one row, at the end of the table, exactly when it
    answers with that row, and then the session has a user whose profile has
    the role "admin" or "moderator" and the insert reported no error. With
    no user the answer is 401, with a user of another role, of no role or of
    no profile it is 403, and in both cases, as with any other answer, the
    table is left as it was. *)
Theorem testimonials_POST_staff_only {Row : Type}
    (be : PostBackend) (testimonials : list Row) (body : option Row) :
  match fst (POST be testimonials body) with
  | PostData row =>
      snd (POST be testimonials body) = (testimonials ++ [row])%list /\
      body = Some row /\ postInsertError be = None /\
      exists uid, postUser be = Some uid /\
                  (postProfile be uid = Data (Some "admin") \/
                   postProfile be uid = Data (Some "moderator"))
  | _ => snd (POST be testimonials body) = testimonials
  end /\
  (postUser be = None ->
   POST be testimonials body = (PostError 401 "Unauthorized", testimonials)) /\
  (forall uid,
      postUser be = Some uid ->
      postProfile be uid <> Data (Some "admin") ->
      postProfile be uid <> Data (Some "moderator") ->
      POST be testimonials body = (PostError 403 "Forbidden", testimonials)).
Proof.
  unfold POST. split; [|split].
  - destruct (postUser be) as [uid|]; [|reflexivity].
    destruct (notStaff (postProfile be uid)) eqn:Hs; [reflexivity|].
    apply notStaff_false in Hs.
    destruct body as [row|]; [|reflexivity].
    destruct (postInsertError be) eqn:Hi; [reflexivity|]. simpl. eauto 6.
  - intros ->. reflexivity.
  - intros uid -> H1 H2.
    destruct (notStaff (postProfile be uid)) eqn:Hs; [reflexivity|].
    apply notStaff_false in Hs. tauto.
Qed.

End Staff.

Lemma testimonials_POST_staff_only_witness :
  let profiles := fun uid : string =>
    if String.eqb uid "u-1" then Data (Some "moderator") else Data (Some "user") in
  TestimonialsRoute.POST (TestimonialsRoute.mkPostBackend None profiles None)
    ["first"] (Some "second")
  = (TestimonialsRoute.PostError 401 "Unauthorized", ["first"]) /\
  TestimonialsRoute.POST (TestimonialsRoute.mkPostBackend (Some "u-2") profiles None)
    ["first"] (Some "second")
  = (TestimonialsRoute.PostError 403 "Forbidden", ["first"]) /\
  TestimonialsRoute.POST (TestimonialsRoute.mkPostBackend (Some "u-1") profiles None)
    ["first"] (Some "second")
  = (TestimonialsRoute.PostData "second", ["first"; "second"]).
Proof.
  intros profiles. split; [|split].
  - apply (proj1 (proj2 (testimonials_POST_staff_only
                           (TestimonialsRoute.mkPostBackend None profiles None)
                           ["first"] (Some "second")))).
    reflexivity.
  - apply (proj2 (proj2 (testimonials_POST_staff_only
                           (TestimonialsRoute.mkPostBackend (Some "u-2") profiles None)
                           ["first"] (Some "second"))) "u-2");
      [reflexivity | discriminate | discriminate].
  - reflexivity.
Defined.

Lemma filteredData_no_active_filter_witness :
  let items := [ManifestoList.mkItem "1" "Open budgets" "Publish every budget" "Governance"
                  "High" "1 year";
                ManifestoList.mkItem "2" "Digital land records" "One register" "Administration"
                  "Medium" "a decade"] in
  let filters := ManifestoList.mkFilters "" [] [] (6, 60) true in
  ManifestoList.filteredData items filters = items.
Proof.
  intros items filters.
  apply (proj1 (filteredData_no_active_filter items filters eq_refl)).
Defined.

Lemma handleCategoryChange_uncheck_witness :
  let prev := ManifestoList.mkFilters "tax" ["Economy"; "Justice"] ["High"] (6, 36) true in
  ManifestoList.handleCategoryChange "Health" false
    (ManifestoList.handleCategoryChange "Health" true prev) = prev /\
  (In "Justice" (ManifestoList.selectedCategories
                   (ManifestoList.handleCategoryChange "Economy" false prev))
   <-> In "Justice" (ManifestoList.selectedCategories prev)).
Proof.
  intros prev. split.
  - apply (proj2 (proj2 (handleCategoryChange_uncheck "Health" prev))).
    simpl. intuition discriminate.
  - apply (proj1 (proj2 (handleCategoryChange_uncheck "Economy" prev))).
    discriminate.
Defined.

Lemma filteredData_check_category_witness :
  let a := ManifestoList.mkItem "1" "Open budgets" "Publish every budget" "Governance"
             "High" "1 year" in
  let b := ManifestoList.mkItem "2" "Faster courts" "Clear the backlog" "Justice"
             "Medium" "2 years" in
  let one := ManifestoList.mkFilters "" ["Governance"] [] (6, 60) false in
  In a (ManifestoList.filteredData [a; b] one) /\
  In a (ManifestoList.filteredData [a; b]
          (ManifestoList.handleCategoryChange "Justice" true one)) /\
  ManifestoList.category b = "Justice".
Proof.
  intros a b one.
  assert (Ha : In a (ManifestoList.filteredData [a; b] one)) by (vm_compute; auto).
  split; [exact Ha|]. split.
  - apply (proj2 (filteredData_check_category [a; b] one "Justice" a));
      [discriminate | exact Ha].
  - apply (proj1 (filteredData_check_category [a; b] ManifestoList.clearFilters "Justice" b));
      [reflexivity | vm_compute; auto].
Defined.

Lemma sortedData_stable_witness :
  let a := ManifestoList.mkItem "1" "Open budgets" "Publish every budget" "Governance"
             "High" "1 year" in
  let b := ManifestoList.mkItem "2" "Faster courts" "Clear the backlog" "Justice"
             "Medium" "2 years" in
  let votes := ManifestoList.voteCountsMap
                 [ManifestoList.mkVote "1" "like"; ManifestoList.mkVote "2" "like";
                  ManifestoList.mkVote "2" "dislike"; ManifestoList.mkVote "2" "like"] in
  ManifestoList.sortedData [b; a] votes = [b; a].
Proof.
  intros a b votes.
  apply (proj1 (proj2 (proj2 (proj2 (sortedData_stable [b; a] votes))))).
  intros x y Hx Hy.
  assert (E : forall z, In z [b; a] -> ManifestoList.score votes z = 1).
  { intros z [<-|[<-|[]]]; vm_compute; reflexivity. }
  now rewrite (E x Hx), (E y Hy).
Defined.

(** ** The manifesto list: the search *)

Section Search.
Import ManifestoList.

Lemma toLowerCaseChar_idempotent (c : ascii) :
  Js.toLowerCaseChar (Js.toLowerCaseChar c) = Js.toLowerCaseChar c.
Proof.
  destruct c as [[|] [|] [|] [|] [|] [|] [|] [|]]; vm_compute; reflexivity.
Qed.

Lemma toLowerCase_idempotent (s : string) :
  Js.toLowerCase (Js.toLowerCase s) = Js.toLowerCase s.
Proof.
  induction s as [|c s IH]; simpl; [reflexivity|].
  now rewrite toLowerCaseChar_idempotent, IH.
Qed.

Lemma includes_self (s : string) : Js.includes s s = true.
Proof.
  destruct s as [|c s]; [reflexivity|].
  change (Js.includes (String c s) (String c s))
    with (if String.prefix (String c s) (String c s) then true
          else Js.includes (String c s) s).
  pose proof (prefix_append (String c s) EmptyString) as H.
  rewrite append_empty_r in H. now rewrite H.
Qed.

(** X23. The search does not look at the case of the letters: a query and
    its lower-case form give the same list, and the title of an item,
    typed in any case and with no other filter, finds the item. *)
Theorem filteredData_search_ignores_case
    (manifestoData : list ManifestoSummaryItem) (query : string)
    (categories priorities : list string) (range : Z * Z) (advanced : bool) :
  filteredData manifestoData
    (mkFilters (Js.toLowerCase query) categories priorities range advanced)
  = filteredData manifestoData (mkFilters query categories priorities range advanced) /\
  (forall item,
      In item manifestoData ->
      Js.toLowerCase query = Js.toLowerCase (title item) ->
      In item (filteredData manifestoData (mkFilters query [] [] (6, 60) advanced))).
Proof.
  split.
  - unfold filteredData. destruct manifestoData as [|x l]; [reflexivity|].
    apply List.filter_ext. intros item. unfold keeps.
    cbn [searchQuery selectedCategories selectedPriorities timelineRange].
    destruct query as [|c q]; [reflexivity|].
    change (Js.toLowerCase (String c q))
      with (String (Js.toLowerCaseChar c) (Js.toLowerCase q)) at 1.
    cbv iota.
    change (String (Js.toLowerCaseChar c) (Js.toLowerCase q))
      with (Js.toLowerCase (String c q)).
    now rewrite toLowerCase_idempotent.
  - intros item Hin Hq.
    assert (Hk : keeps (mkFilters query [] [] (6, 60) advanced) item = true).
    { assert (Ht : match getTimelineInMonths (timeline item) with
                   | Some m => if (m <? 6) || (60 <? m) then false else true
                   | None => true
                   end = true).
      { destruct (getTimelineInMonths (timeline item)) as [m|] eqn:Em; [|reflexivity].
        apply getTimelineInMonths_bounds in Em.
        destruct (m <? 6) eqn:E1; [apply Z.ltb_lt in E1; lia|].
        destruct (60 <? m) eqn:E2; [apply Z.ltb_lt in E2; lia|]. reflexivity. }
      unfold keeps.
      cbn [searchQuery selectedCategories selectedPriorities timelineRange
           nonEmpty andb fst snd].
      destruct query as [|c q]; cbv iota zeta.
      - exact Ht.
      - rewrite Hq, includes_self. exact Ht. }
    unfold filteredData. destruct manifestoData as [|x l] eqn:E; [contradiction|].
    rewrite <- E in *. apply filter_In. now split.
Qed.

End Search.

Lemma filteredData_search_ignores_case_witness :
  let a := ManifestoList.mkItem "1" "Open Budgets" "Publish every budget" "Governance"
             "High" "1 year" in
  let b := ManifestoList.mkItem "2" "Faster courts" "Clear the backlog" "Justice"
             "Medium" "2 years" in
  In a (ManifestoList.filteredData [a; b]
          (ManifestoList.mkFilters "OPEN budgets" [] [] (6, 60) false)).
Proof.
  intros a b.
  apply (proj2 (filteredData_search_ignores_case [a; b] "OPEN budgets" [] [] (6, 60) false) a);
    [now left | reflexivity].
Defined.

(** ** The suggestions route: a request that is accepted *)

Section Accepted.
Import SuggestionsRoute.

(** X24. A request is accepted when it passes every gate: with an allowed
    origin, let through by the limiter, a session with a user and no error,
    a content and an author name that are strings with more than white
    space, an agenda id that resolves to a UUID, and an insert without
    error, the answer has status 200 and carries the row that is stored. *)
Theorem POST_accepts (be : Backend) (w : World) (req : Request) (b : Body)
    (uid aid c a queryId : string) :
  originAllowed req = true ->
  fst (RateLimit.checkRateLimit (rateLimit w) "suggestion-create" (ip req)
         (arrival req) 5 (10 * 60 * 1000)) = true ->
  authError (getUser be) = false ->
  user (getUser be) = Some uid ->
  body req = Some b ->
  agenda_id b = Some aid -> aid <> EmptyString ->
  body_content b = VString c -> Js.trim c <> EmptyString ->
  body_author_name b = VString a -> Js.trim a <> EmptyString ->
  UuidHelpers.isValid
    (UuidHelpers.validateAndNormalizeAgendaId (Fulfilled (findAgenda be)) aid) = true ->
  UuidHelpers.agendaUUID
    (UuidHelpers.validateAndNormalizeAgendaId (Fulfilled (findAgenda be)) aid)
  = Some queryId ->
  queryId <> EmptyString ->
  insertError be = false ->
  let auto := autoApproveOf (systemSettings be) in
  let row := Db.mkSuggestion (newId be) queryId uid (Js.trim c) (Js.trim a)
               (if auto then "approved" else "pending") (now be) in
  fst (POST be w req) = Json 200 (Created row (confirmationMessage auto) auto) /\
  suggestions (snd (POST be w req)) = (suggestions w ++ [row])%list.
Proof.
  intros Ho Hl He Hu Hb Hid Haid Hc Hc' Ha Ha' Hv Hq Hq' Hi auto row.
  unfold POST. rewrite Ho. simpl negb. cbv iota.
  destruct (RateLimit.checkRateLimit _ _ _ _ _ _) as [ok log]. simpl in Hl. subst ok.
  simpl negb. cbv iota. rewrite He, Hu, Hb, Hid, Hc, Ha.
  assert (Hf : falsy (Some aid) = false) by (destruct aid; [contradiction | reflexivity]).
  rewrite Hf.
  assert (Hcc : check (VString c) = Given c).
  { simpl. destruct c as [|x c]; [now destruct Hc'|].
    destruct (Js.trim (String x c)); [now destruct Hc' | reflexivity]. }
  assert (Hca : check (VString a) = Given a).
  { simpl. destruct a as [|x a]; [now destruct Ha'|].
    destruct (Js.trim (String x a)); [now destruct Ha' | reflexivity]. }
  rewrite Hcc, Hca. simpl default. rewrite Hv, Hq.
  assert (Hfq : falsy (Some queryId) = false)
    by (destruct queryId; [contradiction | reflexivity]).
  rewrite Hfq, Hi. simpl. split; reflexivity.
Qed.

End Accepted.

Lemma POST_accepts_witness :
  let be := SuggestionsRoute.mkBackend (mkAuth (Some "u-1") false)
              (fun _ => Data "123e4567-e89b-42d3-a456-426614174000")
              (fun _ => Data "Open budgets") (Data (Some true))
              false false "s-9" 1700000000000 in
  let b := SuggestionsRoute.mkBody (Some "manifesto-12")
             (SuggestionsRoute.VString " Publish the budget ")
             (SuggestionsRoute.VString "Asha") in
  let req := SuggestionsRoute.mkRequest true "203.0.113.7" 0 (Some b) in
  let w := SuggestionsRoute.mkWorld [] [] [] in
  SuggestionsRoute.suggestions (snd (SuggestionsRoute.POST be w req))
  = [Db.mkSuggestion "s-9" "123e4567-e89b-42d3-a456-426614174000" "u-1"
       "Publish the budget" "Asha" "approved" 1700000000000].
Proof.
  intros be b req w.
  refine (proj2 (POST_accepts be w req b "u-1" "manifesto-12" " Publish the budget "
                   "Asha" "123e4567-e89b-42d3-a456-426614174000"
                   eq_refl eq_refl eq_refl eq_refl eq_refl eq_refl _ eq_refl _
                   eq_refl _ eq_refl eq_refl _ eq_refl)); discriminate.
Defined.

(** ** The generated UUID of the first 9999 numbers *)

Section Generated.
Import Js UuidHelpers.

(** X25. For a manifesto id whose number has at most four digits, so for
    every number up to 9999, the UUID that is generated when the agenda has
    no row is accepted by [isValidUUID]: it can be handed to the routes that
    expect a UUID. *)
Theorem generateDeterministicUUID_valid_four_digits (n : string) :
  test_digits n = true ->
  (String.length n <= 4)%nat ->
  isManifestoFormat ("manifesto-" +:+ n) = true /\
  isValidUUID (generateDeterministicUUID ("manifesto-" +:+ n)) = true /\
  forall createClient,
    validateAndNormalizeAgendaId createClient
      (generateDeterministicUUID ("manifesto-" +:+ n))
    = mkValidation true (generateDeterministicUUID ("manifesto-" +:+ n))
        (Some (generateDeterministicUUID ("manifesto-" +:+ n))) None.
Proof.
  intros Hn Hlen.
  assert (Hv : isValidUUID (generateDeterministicUUID ("manifesto-" +:+ n)) = true).
  { rewrite generateDeterministicUUID_valid_iff by exact Hn. now apply Nat.leb_le. }
  split; [now apply isManifestoFormat_manifesto|]. split; [exact Hv|].
  intros createClient. unfold validateAndNormalizeAgendaId. now rewrite Hv.
Qed.

End Generated.

Lemma generateDeterministicUUID_valid_four_digits_witness :
  UuidHelpers.isValidUUID (UuidHelpers.generateDeterministicUUID "manifesto-9999") = true.
Proof.
  apply (generateDeterministicUUID_valid_four_digits "9999"); [reflexivity | simpl; lia].
Defined.

Lemma POST_writes_only_on_success_witness :
  let be := SuggestionsRoute.mkBackend (mkAuth (Some "u-1") false)
              (fun _ => PGRST116) (fun _ => PGRST116) PGRST116
              false true "s-9" 1700000000000 in
  let b := SuggestionsRoute.mkBody (Some "12")
             (SuggestionsRoute.VString "Publish the budget")
             (SuggestionsRoute.VString "Asha") in
  let req := SuggestionsRoute.mkRequest true "203.0.113.7" 0 (Some b) in
  let w := SuggestionsRoute.mkWorld [] [] [] in
  fst (SuggestionsRoute.POST be w req)
  = SuggestionsRoute.Json 500 (SuggestionsRoute.Error "Failed to create suggestion") /\
  SuggestionsRoute.suggestions (snd (SuggestionsRoute.POST be w req)) = [].
Proof.
  intros be b req w.
  assert (H : fst (SuggestionsRoute.POST be w req)
              = SuggestionsRoute.Json 500
                  (SuggestionsRoute.Error "Failed to create suggestion"))
    by (vm_compute; reflexivity).
  split; [exact H|].
  pose proof (POST_writes_only_on_success be w req) as P.
  rewrite H in P. exact (proj1 P).
Defined.
